(** * express-jobly: the partial-update compiler, the companies route and
      the key-checked model operations

    The development follows the repository's files:
    - [Js]: the JavaScript values and operators the code relies on;
    - [Sql]: [helpers/sql.js], the function [sqlForPartialUpdate];
    - [CompaniesRoute]: the handler of [GET /companies] in
      [routes/companies.js];
    - [Model]: the model operations [get], [update], [remove] and [findAll]
      of jobs and companies, whose files are described by the specification
      and exercised by [models/job.test.js] and [routes/jobs.test.js].

    Definitions come first, module by module; the properties follow. *)

From Stdlib Require Import ZArith QArith String Ascii List.
From stdpp Require Import base option list gmap strings pretty.

Local Open Scope string_scope.
Local Open Scope Z_scope.

(* ===================================================================== *)
(** * JavaScript values *)
(* ===================================================================== *)

Module Js.

(** The values that travel through the code.  Numbers stand for the
    integers the application binds (salaries, head counts, ids), whose
    string form is the plain decimal one.  An object or a function is given
    by what [String] makes of it, which is all the code asks of one. *)
Inductive value : Type :=
| VUndefined
| VNull
| VBool (b : bool)
| VNum (n : Z)
| VStr (s : string)
| VObject (printed : string).

#[global] Instance value_eq_dec : EqDecision value.
Proof. solve_decision. Defined.

(** ToBoolean: [undefined], [null], [false], [0] and the empty string are
    falsy; every object is truthy. *)
Definition truthy (v : value) : bool :=
  match v with
  | VUndefined | VNull => false
  | VBool b => b
  | VNum n => negb (n =? 0)
  | VStr s => negb (String.eqb s "")
  | VObject _ => true
  end.

(** ToString, as applied by a template literal. *)
Definition toString (v : value) : string :=
  match v with
  | VUndefined => "undefined"
  | VNull => "null"
  | VBool true => "true"
  | VBool false => "false"
  | VNum n => pretty n
  | VStr s => s
  | VObject printed => printed
  end.

(** [a || b] *)
Definition or (a b : value) : value := if truthy a then a else b.

(** What every plain object inherits from [Object.prototype], as Node
    prints it: the built-in methods, the constructor [Object], and under
    [__proto__] the prototype itself. *)
Definition objectPrototype (k : string) : option value :=
  if String.eqb k "__proto__" then Some (VObject "[object Object]")
  else if String.eqb k "constructor"
  then Some (VObject "function Object() { [native code] }")
  else if bool_decide
            (k ∈ ["__defineGetter__"; "__defineSetter__"; "hasOwnProperty";
                  "__lookupGetter__"; "__lookupSetter__"; "isPrototypeOf";
                  "propertyIsEnumerable"; "toString"; "valueOf"; "toLocaleString"])
  then Some (VObject ("function " +:+ k +:+ "() { [native code] }"))
  else None.

(** [obj[k]] on a plain object given by its own entries: the own entry when
    there is one, else the property inherited from [Object.prototype], else
    [undefined]. *)
Definition get (obj : gmap string value) (k : string) : value :=
  match obj !! k with
  | Some v => v
  | None => default VUndefined (objectPrototype k)
  end.

(** An object whose enumeration order matters is the list of its entries in
    that order; [Object.keys] and [Object.values] both walk it. *)
Abbreviation object := (list (string * value)).
Definition keys (o : object) : list string := o.*1.
Definition values (o : object) : list value := o.*2.

(** What a call may throw: the two classes of [expressError.js] used by the
    code under study, and an error raised by the database client. *)
Inductive error : Type :=
| BadRequestError (message : string)
| NotFoundError (message : string)
| DatabaseError (message : string).

#[global] Instance error_eq_dec : EqDecision error.
Proof. solve_decision. Defined.

(** A call that returns or throws. *)
Definition result (A : Type) : Type := (error + A)%type.

End Js.

(* ===================================================================== *)
(** * helpers/sql.js *)
(* ===================================================================== *)

Module Sql.
Import Js.

Record compiled : Type := Compiled { setCols : string; values : list value }.

(** The double-quote character that surrounds a column name. *)
Definition dquote : string := String "034"%char EmptyString.

(** [jsToSql[colName] || colName], as the template literal prints it. *)
Definition columnName (jsToSql : gmap string value) (colName : string) : string :=
  toString (or (get jsToSql colName) (VStr colName)).

(** One [SET] assignment: the column in double quotes, then [=$] and the
    placeholder position. *)
Definition assignment (column : string) (position : nat) : string :=
  dquote +:+ column +:+ dquote +:+ "=$" +:+ pretty position.

(** [keys.map((colName, idx) => ...)], the array [cols]. *)
Definition cols (keys : list string) (jsToSql : gmap string value) : list string :=
  imap (fun idx colName => assignment (columnName jsToSql colName) (idx + 1)) keys.

(** [function sqlForPartialUpdate(dataToUpdate, jsToSql)] *)
Definition sqlForPartialUpdate (dataToUpdate : object) (jsToSql : gmap string value)
  : result compiled :=
  let keys := Js.keys dataToUpdate in
  if Nat.eqb (length keys) 0 then inl (BadRequestError "No data")
  else
    inr {| setCols := String.concat ", " (cols keys jsToSql);
           values := Js.values dataToUpdate |}.

End Sql.

(* ===================================================================== *)
(** * routes/companies.js: GET /companies *)
(* ===================================================================== *)

Module CompaniesRoute.
Import Js.

(** A JavaScript number as the handler sees it: an IEEE double, given by
    the rational it denotes when finite.  Both zeros denote [0]. *)
Inductive number : Type :=
| NaN
| Finite (q : Q)
| PosInfinity
| NegInfinity.

(** [a > b] on numbers: false as soon as one side is [NaN]. *)
Definition gt (a b : number) : bool :=
  match a, b with
  | NaN, _ => false
  | _, NaN => false
  | NegInfinity, _ => false
  | _, PosInfinity => false
  | PosInfinity, _ => true
  | Finite _, NegInfinity => true
  | Finite x, Finite y => negb (Qle_bool x y)
  end.

(** [req.query] when each parameter is a string or is missing; the handler
    on arrays and objects is in [CompaniesRouteAny]. *)
Record query : Type := Query {
  name : option string;
  minEmployees : option string;
  maxEmployees : option string
}.

(** The arguments of one call [Company.findAll(name, minEmployees,
    maxEmployees)]. *)
Record findAllCall : Type := FindAllCall {
  argName : option string;
  argMin : option number;
  argMax : option number
}.

(** How the handler ends: [res.json({ companies })] or [next(err)]. *)
Inductive response (A : Type) : Type :=
| Json (companies : A)
| Next (err : error).
Arguments Json {A} companies.
Arguments Next {A} err.

(** The effects of the handler's body: the calls made to
    [Company.findAll], in order, and then a value or a thrown error. *)
Definition action (A : Type) : Type := (list findAllCall * result A)%type.

Definition ret {A : Type} (a : A) : action A := ([], inr a).

Definition throw {A : Type} (err : error) : action A := ([], inl err).

Definition bind {A B : Type} (m : action A) (k : A -> action B) : action B :=
  match m with
  | (calls, inr a) => ((calls ++ (k a).1)%list, (k a).2)
  | (calls, inl err) => (calls, inl err)
  end.

Declare Scope action_scope.
Delimit Scope action_scope with action.
Notation "x <- m ;; k" := (bind m (fun x => k))
  (at level 100, m at next level, right associativity) : action_scope.
Notation "m ;; k" := (bind m (fun _ => k))
  (at level 100, right associativity) : action_scope.

Section Handler.

(** [Number(s)] on a string, a built-in of the runtime. *)
Variable Number : string -> number.

(** [Company.findAll] of [models/company.js], awaited: the companies it
    resolves to, or the error it rejects with. *)
Variable companies : Type.
Variable findAll : option string -> option number -> option number -> result companies.

(** [await Company.findAll(name, minEmployees, maxEmployees)] *)
Definition awaitFindAll (name : option string) (minEmployees maxEmployees : option number)
  : action companies :=
  ([FindAllCall name minEmployees maxEmployees], findAll name minEmployees maxEmployees).

(** [raw ? Number(raw) : undefined] *)
Definition toBound (raw : option string) : option number :=
  match raw with
  | Some s => if truthy (VStr s) then Some (Number s) else None
  | None => None
  end.

(** [minEmployees !== undefined && maxEmployees !== undefined
     && minEmployees > maxEmployees] *)
Definition minAboveMax (minE maxE : option number) : bool :=
  match minE, maxE with
  | Some a, Some b => gt a b
  | _, _ => false
  end.

(** The body of the [try] block. *)
Definition tryBlock (q : query) : action (response companies) :=
  (let name := name q in
   let minEmployees := toBound (minEmployees q) in
   let maxEmployees := toBound (maxEmployees q) in
   (if minAboveMax minEmployees maxEmployees
    then throw (BadRequestError "minEmployees must be less than maxEmployees")
    else ret tt) ;;
   companies <- awaitFindAll name minEmployees maxEmployees ;;
   ret (Json companies))%action.

(** The handler of [router.get("/")]: the [try] block, and [next(err)] on
    what it throws.  It yields the calls made to [Company.findAll] and the
    way the request ends. *)
Definition getCompanies (q : query) : list findAllCall * response companies :=
  match tryBlock q with
  | (calls, inr ended) => (calls, ended)
  | (calls, inl err) => (calls, Next err)
  end.

End Handler.

(** [Number] restricted to two kinds of strings: a string of decimal digits
    (read exactly, as the runtime does below 2^53) and a string with a
    character that no numeric literal contains, sent to [NaN]. *)
Definition isDigit (c : ascii) : bool :=
  (48 <=? nat_of_ascii c)%nat && (nat_of_ascii c <=? 57)%nat.

Fixpoint digitsValue (acc : Z) (s : string) : option Z :=
  match s with
  | EmptyString => Some acc
  | String c s' =>
      if isDigit c
      then digitsValue (10 * acc + Z.of_nat (nat_of_ascii c - 48)) s'
      else None
  end.

Definition NumberOfDigits (s : string) : number :=
  match digitsValue 0 s with
  | Some z => Finite (inject_Z z)
  | None => NaN
  end.

End CompaniesRoute.

(* ===================================================================== *)
(** * models/job.js and models/company.js *)
(* ===================================================================== *)

Module Model.
Import Js.

(** A stored row maps each column to its value; a table lists its rows in
    insertion order. *)
Abbreviation row := (gmap string value).
Abbreviation table := (list (gmap string value)).

(** ** Key-checked operations *)

(** The statements sent to the storage engine: the lookup by key, the
    update built from the compiled [SET] clause with its parameters (the
    values, then the key), and the deletion by key. *)
Inductive statement : Type :=
| SelectByKey (key : value)
| UpdateByKey (setCols : string) (params : list value)
| DeleteByKey (key : value).

Definition isMutation (s : statement) : bool :=
  match s with
  | SelectByKey _ => false
  | UpdateByKey _ _ | DeleteByKey _ => true
  end.

(** What an operation leaves behind: what it returns or throws, the table
    as stored afterwards, and the statements it issued, in order. *)
Record outcome (A : Type) : Type := Outcome {
  returned : result A;
  stored : table;
  issued : list statement
}.
Arguments Outcome {A} returned stored issued.
Arguments returned {A} o.
Arguments stored {A} o.
Arguments issued {A} o.

Section Entity.

(** The primary-key column, the entity's name in messages, the translation
    of outward field names to columns, the columns an update may not
    touch besides the key, the columns that reject [NULL], and the select
    list: each column handed back with the outward name it is given, as in
    [company_handle AS "companyHandle"]. *)
Variable keyCol : string.
Variable label : string.
Variable jsToSql : gmap string value.
Variable immutable : list string.
Variable notNull : list string.
Variable returning : list (string * string).

(** Modelled from the spec: the raw row mapped back to the outward shape
    (sections 2 and 4.2): each selected column under its outward name;
    [models/job.js] and [models/company.js] are missing. *)
Definition outward (r : row) : row :=
  foldr (fun ca acc =>
           match r !! ca.1 with
           | Some v => <[ca.2 := v]> acc
           | None => acc
           end) ∅ returning.

Definition hasKey (key : value) (r : row) : bool :=
  bool_decide (r !! keyCol = Some key).

(** Modelled from the spec: the key-based lookup of section 4.3, the first
    stored row whose key column holds [key]; [models/job.js] and
    [models/company.js] are missing. *)
Definition lookupKey (key : value) (t : table) : option row :=
  List.find (hasKey key) t.

Definition notFound (key : value) : error :=
  NotFoundError ("No " +:+ label +:+ ": " +:+ toString key).

(** Modelled from the spec: [get(key)] of section 4.3, which looks the
    record up and fails with NotFound when it is absent, and hands the
    record back in the outward shape; the model files are missing. *)
Definition get (key : value) (t : table) : outcome row :=
  match lookupKey key t with
  | Some r => Outcome (inr (outward r)) t [SelectByKey key]
  | None => Outcome (inl (notFound key)) t [SelectByKey key]
  end.

(** Modelled from the spec: [remove(key)] of section 4.3, the existence
    check and then the deletion by key; the model files are missing. *)
Definition remove (key : value) (t : table) : outcome unit :=
  match lookupKey key t with
  | Some _ =>
      Outcome (inr tt) (List.filter (fun r => negb (hasKey key r)) t)
        [SelectByKey key; DeleteByKey key]
  | None => Outcome (inl (notFound key)) t [SelectByKey key]
  end.

(** The effect of [SET c1 = v1, ..., cn = vn] on one row. *)
Definition setAll (assigns : list (string * value)) (r : row) : row :=
  foldl (fun acc cv => <[cv.1 := cv.2]> acc) r assigns.

Definition isImmutable (column : string) : bool :=
  bool_decide (column = keyCol) || bool_decide (column ∈ immutable).

Definition nullsNotNull (cv : string * value) : bool :=
  bool_decide (cv.2 = VNull) && bool_decide (cv.1 ∈ notNull).

(** Modelled from the spec: the storage engine running
    [UPDATE ... SET ... WHERE key = ... RETURNING ...]: every row with the
    key gets the assignments, and the rows so changed are returned as they
    are stored afterwards; the model files are missing. *)
Definition execUpdate (assigns : list (string * value)) (key : value) (t : table)
  : list row * table :=
  let t' := (fun r => if hasKey key r then setAll assigns r else r) <$> t in
  (List.filter (hasKey key) t', t').

(** Modelled from the spec: [update(key, partialFields)] of sections 3, 4.3
    and 7.  The record is looked up first (NotFound when absent), the
    payload is compiled by [sqlForPartialUpdate] (BadRequest when empty), an
    assignment to the key or to an immutable column is a BadRequest, a
    [NULL] for a column that is not nullable is refused by the storage
    engine, and the record returned is the one the storage engine hands
    back after the update, in the outward shape; the model files are
    missing. *)
Definition update (key : value) (data : object) (t : table) : outcome row :=
  match lookupKey key t with
  | None => Outcome (inl (notFound key)) t [SelectByKey key]
  | Some _ =>
      match Sql.sqlForPartialUpdate data jsToSql with
      | inl err => Outcome (inl err) t [SelectByKey key]
      | inr c =>
          let columns := Sql.columnName jsToSql <$> keys data in
          let assigns := zip columns (Sql.values c) in
          let sent := UpdateByKey (Sql.setCols c) (Sql.values c ++ [key]) in
          if existsb isImmutable columns
          then Outcome (inl (BadRequestError "Immutable field")) t [SelectByKey key]
          else if existsb nullsNotNull assigns
          then Outcome (inl (DatabaseError "null value violates not-null constraint")) t
                 [SelectByKey key; sent]
          else
            match execUpdate assigns key t with
            | (r :: _, t') => Outcome (inr (outward r)) t' [SelectByKey key; sent]
            | ([], t') => Outcome (inl (notFound key)) t' [SelectByKey key; sent]
            end
      end
  end.

End Entity.

(** ** Filtered finder *)

(** ASCII lower-casing, for case-insensitive matching. *)
Definition lowerChar (c : ascii) : ascii :=
  let n := nat_of_ascii c in
  if (65 <=? n)%nat && (n <=? 90)%nat then ascii_of_nat (n + 32) else c.

Fixpoint lower (s : string) : string :=
  match s with
  | EmptyString => EmptyString
  | String c s' => String (lowerChar c) (lower s')
  end.

(** [needle] occurs in [hay]. *)
Fixpoint contains (needle hay : string) : bool :=
  String.prefix needle hay ||
  match hay with
  | EmptyString => false
  | String _ hay' => contains needle hay'
  end.

(** A decimal string such as ["0.25"]: its digits read as an integer and
    the number of digits after the point. *)
Fixpoint decimalDigits (s : string) (mantissa : Z) (point : bool) (scale : nat)
  : option (Z * nat) :=
  match s with
  | EmptyString => Some (mantissa, scale)
  | String c s' =>
      if Ascii.eqb c "."%char
      then if point then None else decimalDigits s' mantissa true scale
      else if CompaniesRoute.isDigit c
      then decimalDigits s' (10 * mantissa + Z.of_nat (nat_of_ascii c - 48)) point
             (if point then S scale else scale)
      else None
  end.

Definition decimal (s : string) : option (Z * nat) :=
  match s with
  | EmptyString => None
  | _ => decimalDigits s 0 false 0
  end.

(** The number a decimal string denotes, [mantissa / 10^scale]. *)
Definition decimalValue (s : string) : option Q :=
  match decimal s with
  | Some (mantissa, scale) => Some (mantissa # Z.to_pos (10 ^ Z.of_nat scale))
  | None => None
  end.

(** The predicates a [WHERE] clause is made of. *)
Inductive predicate : Type :=
| Contains (column : string) (needle : string)
| AtLeast (column : string) (bound : Z)
| AtMost (column : string) (bound : Z)
| Positive (column : string).

#[global] Instance predicate_eq_dec : EqDecision predicate.
Proof. solve_decision. Defined.

(** Modelled from the spec: the meaning of the predicates of section 4.2,
    case-insensitive containment, inclusive numeric comparison, and
    non-null and above zero; a [NULL] cell satisfies none of them.  The
    model files are missing. *)
Definition holds (p : predicate) (r : row) : bool :=
  match p with
  | Contains column needle =>
      match r !! column with
      | Some (VStr s) => contains (lower needle) (lower s)
      | _ => false
      end
  | AtLeast column bound =>
      match r !! column with
      | Some (VNum n) => bound <=? n
      | _ => false
      end
  | AtMost column bound =>
      match r !! column with
      | Some (VNum n) => n <=? bound
      | _ => false
      end
  | Positive column =>
      match r !! column with
      | Some (VStr d) =>
          match decimalValue d with
          | Some q => negb (Qle_bool q 0)
          | None => false
          end
      | _ => false
      end
  end.

(** Modelled from the spec: the conjunctive [WHERE] clause of section 4.2;
    an empty list is the base query, without [WHERE].  The model files are
    missing. *)
Definition whereClause (ps : list predicate) (r : row) : bool :=
  forallb (fun p => holds p r) ps.

(** Modelled from the spec: the rows a query returns, those of the table
    that satisfy the clause, in stored order; the model files are
    missing. *)
Definition select (ps : list predicate) (t : table) : table :=
  List.filter (whereClause ps) t.

(** What one optional filter adds to the clause. *)
Definition whenPresent {A : Type} (filter : option A) (p : A -> predicate)
  : list predicate :=
  match filter with
  | Some a => [p a]
  | None => []
  end.

(** The number of predicates an optional filter stands for. *)
Definition supplied {A : Type} (filter : option A) : nat :=
  match filter with
  | Some _ => 1
  | None => 0
  end.

End Model.

Module Job.
Import Js Model.

(** The data model of jobs (section 3): the key is [id]; the outward name
    [companyHandle] is the column [company_handle], which does not change
    after creation; salary and equity are the nullable columns. *)
Definition jsToSql : gmap string value := {[ "companyHandle" := VStr "company_handle" ]}.
Definition immutable : list string := ["company_handle"].
Definition notNull : list string := ["title"; "company_handle"].
Definition returning : list (string * string) :=
  [("id", "id"); ("title", "title"); ("salary", "salary"); ("equity", "equity");
   ("company_handle", "companyHandle")].

Definition get := Model.get "id" "job" returning.
Definition remove := Model.remove "id" "job".
Definition update := Model.update "id" "job" jsToSql immutable notNull returning.

(** The equity filter is in force when [hasEquity] is [true], not when it
    is [false] or missing. *)
Definition equityRequested (hasEquity : option bool) : bool :=
  match hasEquity with
  | Some true => true
  | _ => false
  end.

(** Modelled from the spec: the predicates [Job.findAll] builds from its
    filters (section 4.2): one for a title, one for a minimum salary, and
    the equity predicate only when [hasEquity] is [true]; [models/job.js]
    is missing. *)
Definition predicates (title : option string) (minSalary : option Z)
    (hasEquity : option bool) : list predicate :=
  whenPresent title (Contains "title")
  ++ whenPresent minSalary (AtLeast "salary")
  ++ (if equityRequested hasEquity then [Positive "equity"] else []).

(** Modelled from the spec: [Job.findAll(title, minSalary, hasEquity)];
    [models/job.js] is missing. *)
Definition findAll (title : option string) (minSalary : option Z)
    (hasEquity : option bool) (t : table) : table :=
  select (predicates title minSalary hasEquity) t.

(** The rows of [models/_testCommon], as the tests list them. *)
Definition job (id : Z) (title : string) (salary : value) (equity : value)
    (company : string) : row :=
  {[ "id" := VNum id; "title" := VStr title; "salary" := salary;
     "equity" := equity; "company_handle" := VStr company ]}.

(** A job in the outward shape, as [get] and [update] hand it back. *)
Definition jobJson (id : Z) (title : string) (salary : value) (equity : value)
    (companyHandle : string) : row :=
  {[ "id" := VNum id; "title" := VStr title; "salary" := salary;
     "equity" := equity; "companyHandle" := VStr companyHandle ]}.

Definition testJobs : table :=
  [ job 1 "j1" (VNum 100000) (VStr "0.1") "c1";
    job 2 "j2" (VNum 200000) (VStr "0.2") "c2";
    job 3 "j3" (VNum 300000) (VStr "0.3") "c3" ].

End Job.

Module Company.
Import Js Model.

(** The data model of companies (section 3): the key is [handle]; the
    employee count and the logo URL are the nullable columns, stored under
    snake-case names. *)
Definition jsToSql : gmap string value :=
  {[ "numEmployees" := VStr "num_employees"; "logoUrl" := VStr "logo_url" ]}.
Definition immutable : list string := [].
Definition notNull : list string := ["name"; "description"].
Definition returning : list (string * string) :=
  [("handle", "handle"); ("name", "name"); ("description", "description");
   ("num_employees", "numEmployees"); ("logo_url", "logoUrl")].

Definition get := Model.get "handle" "company" returning.
Definition remove := Model.remove "handle" "company".
Definition update := Model.update "handle" "company" jsToSql immutable notNull returning.

(** Modelled from the spec: the predicates [Company.findAll] builds from
    its filters (section 4.2); [models/company.js] is missing. *)
Definition predicates (name : option string) (minEmployees maxEmployees : option Z)
  : list predicate :=
  whenPresent name (Contains "name")
  ++ whenPresent minEmployees (AtLeast "num_employees")
  ++ whenPresent maxEmployees (AtMost "num_employees").

(** Modelled from the spec: [Company.findAll(name, minEmployees,
    maxEmployees)], which only filters: section 4.2 leaves the check of the
    bounds to the request-handling layer; [models/company.js] is missing. *)
Definition findAll (name : option string) (minEmployees maxEmployees : option Z)
    (t : table) : table :=
  select (predicates name minEmployees maxEmployees) t.

End Company.

(* ===================================================================== *)
(** * routes/companies.js: the other four routes *)
(* ===================================================================== *)

Module CompanyHandlers.
Import Js.

(** What reaches [next(err)]: an error raised by a collaborator (a model
    function, the middleware), relayed as it is, or the handler's own
    [new BadRequestError(errs)], whose message is the array of stacks. *)
Inductive thrown (E : Type) : Type :=
| Raised (err : E)
| BadRequestStacks (errs : list string).
Arguments Raised {E} err.
Arguments BadRequestStacks {E} errs.

(** The result of [jsonschema.validate]: the handlers read [valid], and
    the [stack] of each of [errors]. *)
Record validationError : Type := ValidationError { stack : string }.
Record validatorResult : Type := ValidatorResult {
  valid : bool;
  errors : list validationError
}.

(** [req]: the parsed body, [req.params.handle], and what the middleware
    looks at. *)
Record request (jsonBody locals : Type) : Type := Request {
  body : jsonBody;
  handle : string;
  resLocals : locals
}.
Arguments Request {jsonBody locals} body handle resLocals.
Arguments body {jsonBody locals} r.
Arguments handle {jsonBody locals} r.
Arguments resLocals {jsonBody locals} r.

(** The calls to the model [Company]. *)
Inductive modelCall (jsonBody : Type) : Type :=
| Create (data : jsonBody)
| Get (handle : string)
| Update (handle : string) (data : jsonBody)
| Remove (handle : string).
Arguments Create {jsonBody} data.
Arguments Get {jsonBody} handle.
Arguments Update {jsonBody} handle data.
Arguments Remove {jsonBody} handle.

(** The JSON sent back: [{ company }] or [{ deleted: handle }]. *)
Inductive payload (companyJson : Type) : Type :=
| CompanyJson (company : companyJson)
| DeletedJson (deleted : string).
Arguments CompanyJson {companyJson} company.
Arguments DeletedJson {companyJson} deleted.

(** How a route ends: [res.status(status).json(payload)] (the status is 200
    unless set) or [next(err)]. *)
Inductive reply (companyJson E : Type) : Type :=
| Reply (status : nat) (json : payload companyJson)
| Next (err : thrown E).
Arguments Reply {companyJson E} status json.
Arguments Next {companyJson E} err.

Section Routes.

Variable jsonBody companyJson schemaJson locals E : Type.

(** [schemas/companyNew.json], [schemas/companyUpdate.json] and
    [jsonschema.validate]. *)
Variable companyNewSchema companyUpdateSchema : schemaJson.
Variable validate : jsonBody -> schemaJson -> validatorResult.

(** The model functions, awaited: what each resolves to, or the error it
    rejects with. *)
Variable create : jsonBody -> E + companyJson.
Variable get : string -> E + companyJson.
Variable update : string -> jsonBody -> E + companyJson.
Variable remove : string -> E + unit.

(** [ensureAdmin] of [middleware/auth]: it calls [next()] or [next(err)]. *)
Variable ensureAdmin : request jsonBody locals -> E + unit.

(** The effects of a [try] block: the model calls made, in order, and then
    a value or what was thrown. *)
Definition effect (A : Type) : Type := (list (modelCall jsonBody) * (thrown E + A))%type.

Definition pure {A : Type} (a : A) : effect A := ([], inr a).

Definition throw {A : Type} (err : thrown E) : effect A := ([], inl err).

Definition andThen {A B : Type} (m : effect A) (k : A -> effect B) : effect B :=
  match m with
  | (calls, inr a) => ((calls ++ (k a).1)%list, (k a).2)
  | (calls, inl err) => (calls, inl err)
  end.

(** [await f(...)], recorded as [call]. *)
Definition await {A : Type} (call : modelCall jsonBody) (outcome : E + A) : effect A :=
  ([call], match outcome with inr a => inr a | inl err => inl (Raised err) end).

(** [try { ... } catch (err) { return next(err); }] *)
Definition tryCatch (block : effect (reply companyJson E))
  : list (modelCall jsonBody) * reply companyJson E :=
  match block with
  | (calls, inr ended) => (calls, ended)
  | (calls, inl err) => (calls, Next err)
  end.

(** [if (!validator.valid) { const errs = validator.errors.map(e => e.stack);
     throw new BadRequestError(errs); }] *)
Definition requireValid (validator : validatorResult) : effect unit :=
  if negb (valid validator)
  then throw (BadRequestStacks (stack <$> errors validator))
  else pure tt.

(** The handler of [router.post("/")]. *)
Definition postHandler (req : request jsonBody locals)
  : list (modelCall jsonBody) * reply companyJson E :=
  tryCatch
    (let validator := validate (body req) companyNewSchema in
     andThen (requireValid validator) (fun _ =>
     andThen (await (Create (body req)) (create (body req))) (fun company =>
     pure (Reply 201 (CompanyJson company))))).

(** The handler of [router.get("/:handle")]. *)
Definition getHandler (req : request jsonBody locals)
  : list (modelCall jsonBody) * reply companyJson E :=
  tryCatch
    (andThen (await (Get (handle req)) (get (handle req))) (fun company =>
     pure (Reply 200 (CompanyJson company)))).

(** The handler of [router.patch("/:handle")]. *)
Definition patchHandler (req : request jsonBody locals)
  : list (modelCall jsonBody) * reply companyJson E :=
  tryCatch
    (let validator := validate (body req) companyUpdateSchema in
     andThen (requireValid validator) (fun _ =>
     andThen (await (Update (handle req) (body req)) (update (handle req) (body req)))
       (fun company =>
     pure (Reply 200 (CompanyJson company))))).

(** The handler of [router.delete("/:handle")]. *)
Definition deleteHandler (req : request jsonBody locals)
  : list (modelCall jsonBody) * reply companyJson E :=
  tryCatch
    (andThen (await (Remove (handle req)) (remove (handle req))) (fun _ =>
     pure (Reply 200 (DeletedJson (handle req))))).

(** A route with one middleware before its handler: the handler runs when
    the middleware calls [next()]; on [next(err)] the error goes on and the
    handler is skipped. *)
Definition behind (middleware : request jsonBody locals -> E + unit)
    (handler : request jsonBody locals -> list (modelCall jsonBody) * reply companyJson E)
    (req : request jsonBody locals) : list (modelCall jsonBody) * reply companyJson E :=
  match middleware req with
  | inr _ => handler req
  | inl err => ([], Next (Raised err))
  end.

(** The routes as registered on the router. *)
Definition postCompany := behind ensureAdmin postHandler.
Definition getCompany := getHandler.
Definition patchCompany := behind ensureAdmin patchHandler.
Definition deleteCompany := behind ensureAdmin deleteHandler.

End Routes.

Arguments postHandler {jsonBody companyJson schemaJson locals E}.
Arguments getHandler {jsonBody companyJson locals E}.
Arguments patchHandler {jsonBody companyJson schemaJson locals E}.
Arguments deleteHandler {jsonBody companyJson locals E}.
Arguments behind {jsonBody companyJson locals E}.
Arguments postCompany {jsonBody companyJson schemaJson locals E}.
Arguments getCompany {jsonBody companyJson locals E}.
Arguments patchCompany {jsonBody companyJson schemaJson locals E}.
Arguments deleteCompany {jsonBody companyJson locals E}.

End CompanyHandlers.

(* ===================================================================== *)
(** * routes/companies.js: GET /companies on any parsed query *)
(* ===================================================================== *)

Module CompaniesRouteAny.
Import Js.

(** A value of [req.query] as the query parser builds it: a string, or for
    a repeated or bracketed parameter an array or an object of such
    values. *)
#[local] Unset Elimination Schemes.
Inductive queryValue : Type :=
| QString (s : string)
| QArray (items : list queryValue)
| QObject (fields : list (string * queryValue)).
#[local] Set Elimination Schemes.

(** ToBoolean on a query value: a string is truthy unless empty; arrays
    and objects are truthy, the empty ones too. *)
Definition isTruthy (v : queryValue) : bool :=
  match v with
  | QString s => truthy (VStr s)
  | QArray _ | QObject _ => true
  end.

Record query : Type := Query {
  name : option queryValue;
  minEmployees : option queryValue;
  maxEmployees : option queryValue
}.

Record findAllCall : Type := FindAllCall {
  argName : option queryValue;
  argMin : option CompaniesRoute.number;
  argMax : option CompaniesRoute.number
}.

(** The effects of the handler's body: the calls made to
    [Company.findAll], and then a value or a thrown error. *)
Definition effect (A : Type) : Type := (list findAllCall * result A)%type.

Definition pure {A : Type} (a : A) : effect A := ([], inr a).

Definition throw {A : Type} (err : error) : effect A := ([], inl err).

Definition andThen {A B : Type} (m : effect A) (k : A -> effect B) : effect B :=
  match m with
  | (calls, inr a) => ((calls ++ (k a).1)%list, (k a).2)
  | (calls, inl err) => (calls, inl err)
  end.

Section Handler.

(** [Number(v)] on a query value, a built-in of the runtime. *)
Variable Number : queryValue -> CompaniesRoute.number.

(** [Company.findAll], awaited. *)
Variable companies : Type.
Variable findAll :
  option queryValue -> option CompaniesRoute.number -> option CompaniesRoute.number
  -> result companies.

Definition awaitFindAll (name : option queryValue)
    (minEmployees maxEmployees : option CompaniesRoute.number) : effect companies :=
  ([FindAllCall name minEmployees maxEmployees], findAll name minEmployees maxEmployees).

(** [raw ? Number(raw) : undefined] *)
Definition toBound (raw : option queryValue) : option CompaniesRoute.number :=
  match raw with
  | Some v => if isTruthy v then Some (Number v) else None
  | None => None
  end.

(** The body of the [try] block. *)
Definition tryBlock (q : query) : effect (CompaniesRoute.response companies) :=
  let name := name q in
  let minEmployees := toBound (minEmployees q) in
  let maxEmployees := toBound (maxEmployees q) in
  andThen
    (if CompaniesRoute.minAboveMax minEmployees maxEmployees
     then throw (BadRequestError "minEmployees must be less than maxEmployees")
     else pure tt)
    (fun _ =>
       andThen (awaitFindAll name minEmployees maxEmployees) (fun companies =>
       pure (CompaniesRoute.Json companies))).

(** The handler of [router.get("/")], on any parsed query. *)
Definition getCompanies (q : query)
  : list findAllCall * CompaniesRoute.response companies :=
  match tryBlock q with
  | (calls, inr ended) => (calls, ended)
  | (calls, inl err) => (calls, CompaniesRoute.Next err)
  end.

End Handler.

(** A query whose parameters are all strings, among the parsed queries. *)
Definition ofStrings (q : CompaniesRoute.query) : query :=
  Query (QString <$> CompaniesRoute.name q)
        (QString <$> CompaniesRoute.minEmployees q)
        (QString <$> CompaniesRoute.maxEmployees q).

Definition ofStringCall (c : CompaniesRoute.findAllCall) : findAllCall :=
  FindAllCall (QString <$> CompaniesRoute.argName c)
              (CompaniesRoute.argMin c) (CompaniesRoute.argMax c).

End CompaniesRouteAny.

(* ===================================================================== *)
(** * Characters of a name *)
(* ===================================================================== *)

Module Text.

(** The character [c] occurs in [s]. *)
Fixpoint occurs (c : ascii) (s : string) : bool :=
  match s with
  | EmptyString => false
  | String a s' => Ascii.eqb a c || occurs c s'
  end.

(** A name without a double quote: between double quotes it reads as one
    identifier. *)
Definition quoteFree (s : string) : Prop := occurs "034"%char s = false.

End Text.

(* ===================================================================== *)
(** * Properties of [sqlForPartialUpdate] *)
(* ===================================================================== *)

Module SqlFacts.
Import Js Sql.

(** The tests of [helpers/sql.test.js]. *)
Example test_single_item :
  sqlForPartialUpdate [("firstName", VStr "Test")] {["firstName" := VStr "first_name"]}
  = inr {| setCols := dquote +:+ "first_name" +:+ dquote +:+ "=$1";
           values := [VStr "Test"] |}.
Proof. vm_compute. reflexivity. Qed.

Example test_multiple_items :
  sqlForPartialUpdate
    [("firstName", VStr "Test"); ("lastName", VStr "Tester"); ("age", VNum 30)]
    {["firstName" := VStr "first_name"; "lastName" := VStr "last_name"]}
  = inr {| setCols := dquote +:+ "first_name" +:+ dquote +:+ "=$1, "
                      +:+ dquote +:+ "last_name" +:+ dquote +:+ "=$2, "
                      +:+ dquote +:+ "age" +:+ dquote +:+ "=$3";
           values := [VStr "Test"; VStr "Tester"; VNum 30] |}.
Proof. vm_compute. reflexivity. Qed.

Example test_unmapped_field :
  sqlForPartialUpdate
    [("firstName", VStr "Test"); ("country", VStr "Neverland")]
    {["firstName" := VStr "first_name"]}
  = inr {| setCols := dquote +:+ "first_name" +:+ dquote +:+ "=$1, "
                      +:+ dquote +:+ "country" +:+ dquote +:+ "=$2";
           values := [VStr "Test"; VStr "Neverland"] |}.
Proof. vm_compute. reflexivity. Qed.

Lemma sqlForPartialUpdate_nonempty (dataToUpdate : object) jsToSql :
  dataToUpdate <> [] ->
  sqlForPartialUpdate dataToUpdate jsToSql
  = inr {| setCols := String.concat ", " (cols (keys dataToUpdate) jsToSql);
           values := dataToUpdate.*2 |}.
Proof.
  intros Hne. unfold sqlForPartialUpdate, keys, Js.values.
  destruct dataToUpdate as [|e rest]; [congruence|]. reflexivity.
Qed.

Lemma sqlForPartialUpdate_inr (dataToUpdate : object) jsToSql c :
  sqlForPartialUpdate dataToUpdate jsToSql = inr c ->
  dataToUpdate <> [] /\
  c = {| setCols := String.concat ", " (cols (keys dataToUpdate) jsToSql);
         values := dataToUpdate.*2 |}.
Proof.
  intros H. destruct dataToUpdate as [|e rest].
  - discriminate H.
  - split; [congruence|].
    rewrite sqlForPartialUpdate_nonempty in H by congruence. congruence.
Qed.

Lemma cols_length (dataToUpdate : object) jsToSql :
  length (cols (keys dataToUpdate) jsToSql) = length dataToUpdate.
Proof. unfold cols, keys. by rewrite length_imap, length_fmap. Qed.

Lemma cols_lookup (dataToUpdate : object) jsToSql (i : nat) k v :
  dataToUpdate !! i = Some (k, v) ->
  cols (keys dataToUpdate) jsToSql !! i
  = Some (assignment (columnName jsToSql k) (S i)).
Proof.
  intros H. unfold cols, keys.
  rewrite list_lookup_imap, list_lookup_fmap, H. simpl.
  by rewrite Nat.add_1_r.
Qed.

Lemma values_lookup (dataToUpdate : object) (i : nat) k v :
  dataToUpdate !! i = Some (k, v) -> (dataToUpdate.*2) !! i = Some v.
Proof. intros H. by rewrite list_lookup_fmap, H. Qed.

(** The positions run over [start + 1, start + 2, ...] along the keys. *)
Lemma imap_assignment_seq jsToSql (ks : list string) (start : nat) :
  imap (fun idx colName => assignment (columnName jsToSql colName) (start + idx + 1)) ks
  = zip_with assignment (columnName jsToSql <$> ks) (seq (S start) (length ks)).
Proof.
  revert start. induction ks as [|k ks IH]; intros start; [reflexivity|].
  cbn [imap fmap list_fmap length seq zip_with]. f_equal.
  - f_equal. lia.
  - rewrite <- (IH (S start)). apply imap_ext. intros i x _. simpl.
    f_equal. lia.
Qed.

Lemma cols_zip (dataToUpdate : object) jsToSql :
  cols (keys dataToUpdate) jsToSql
  = zip_with assignment (columnName jsToSql <$> keys dataToUpdate)
      (seq 1 (length dataToUpdate)).
Proof.
  unfold cols. rewrite <- (length_fmap fst dataToUpdate).
  apply (imap_assignment_seq jsToSql (keys dataToUpdate) 0).
Qed.

(** What is inherited from [Object.prototype] is an object, hence truthy. *)
Lemma objectPrototype_truthy (k : string) (inherited : value) :
  objectPrototype k = Some inherited -> truthy inherited = true.
Proof.
  unfold objectPrototype.
  repeat (case_match; [by intros [= <-]|]). discriminate.
Qed.

(** Name resolution, case by case. *)
Lemma columnName_cases jsToSql colName :
  columnName jsToSql colName
  = match jsToSql !! colName with
    | Some t => if truthy t then toString t else colName
    | None =>
        match objectPrototype colName with
        | Some inherited => toString inherited
        | None => colName
        end
    end.
Proof.
  unfold columnName, or, get.
  destruct (jsToSql !! colName) as [t|]; simpl.
  - by destruct (truthy t).
  - destruct (objectPrototype colName) as [inherited|] eqn:Hproto; simpl.
    + by rewrite (objectPrototype_truthy _ _ Hproto).
    + reflexivity.
Qed.

(** The text of an assignment, character by character. *)
Lemma assignment_text (column : string) (position : nat) :
  assignment column position
  = String "034"%char (column +:+ String "034"%char ("=$" +:+ pretty position)).
Proof. reflexivity. Qed.

(** ** The claims on the compiler *)

(** C1. For a non-empty update mapping, [sqlForPartialUpdate] returns; its
    [setCols] is the join by [", "] of one text per input key, in the order
    of the mapping; the i-th text (counting from 1) is a double quote, the
    column, a double quote, [=$] and the decimal numeral of i, so that the
    placeholders are exactly [$1 .. $n]; and its [values] are the input
    values in the same order, the i-th value under the i-th placeholder.
    On the three fields of the test the text is
    ["first_name"=$1, "last_name"=$2, "age"=$3]. *)
Theorem sqlForPartialUpdate_assignments
    (dataToUpdate : object) (jsToSql : gmap string value) :
  dataToUpdate <> [] ->
  exists c texts,
    sqlForPartialUpdate dataToUpdate jsToSql = inr c /\
    setCols c = String.concat ", " texts /\
    length texts = length (keys dataToUpdate) /\
    texts
    = zip_with
        (fun column position =>
           String "034"%char (column +:+ String "034"%char ("=$" +:+ pretty position)))
        (columnName jsToSql <$> keys dataToUpdate)
        (seq 1 (length (keys dataToUpdate))) /\
    values c = Js.values dataToUpdate /\
    length (values c) = length texts /\
    (forall (i : nat) k v,
        dataToUpdate !! i = Some (k, v) ->
        texts !! i
        = Some (String "034"%char
                  (columnName jsToSql k
                   +:+ String "034"%char ("=$" +:+ pretty (i + 1)%nat))) /\
        values c !! i = Some v) /\
    sqlForPartialUpdate
      [("firstName", VStr "Test"); ("lastName", VStr "Tester"); ("age", VNum 30)]
      {["firstName" := VStr "first_name"; "lastName" := VStr "last_name"]}
    = inr {| setCols :=
               String "034"%char
                 ("first_name" +:+ String "034"%char
                    ("=$1, " +:+ String "034"%char
                       ("last_name" +:+ String "034"%char
                          ("=$2, " +:+ String "034"%char
                             ("age" +:+ String "034"%char "=$3")))));
             values := [VStr "Test"; VStr "Tester"; VNum 30] |}.
Proof.
  intros Hne.
  exists {| setCols := String.concat ", " (cols (keys dataToUpdate) jsToSql);
            values := dataToUpdate.*2 |}, (cols (keys dataToUpdate) jsToSql).
  split; [by apply sqlForPartialUpdate_nonempty|].
  split; [reflexivity|].
  split; [unfold keys; by rewrite cols_length, length_fmap|].
  split; [unfold keys at 3; rewrite length_fmap; apply cols_zip|].
  split; [reflexivity|].
  split; [simpl; by rewrite cols_length, length_fmap|].
  split; [|vm_compute; reflexivity].
  intros i k v Hi. rewrite Nat.add_1_r, <- assignment_text. split.
  - by apply cols_lookup with v.
  - simpl. by apply values_lookup with k.
Qed.

Lemma sqlForPartialUpdate_assignments_witness :
  exists c texts,
    sqlForPartialUpdate [("firstName", VStr "Test"); ("age", VNum 30)]
      {["firstName" := VStr "first_name"]} = inr c /\
    setCols c = String.concat ", " texts /\
    length texts = 2%nat /\
    texts
    = zip_with
        (fun column position =>
           String "034"%char (column +:+ String "034"%char ("=$" +:+ pretty position)))
        (columnName {["firstName" := VStr "first_name"]} <$> ["firstName"; "age"])
        [1%nat; 2%nat] /\
    values c = [VStr "Test"; VNum 30] /\
    length (values c) = length texts /\
    (forall (i : nat) k v,
        [("firstName", VStr "Test"); ("age", VNum 30)] !! i = Some (k, v) ->
        texts !! i
        = Some (String "034"%char
                  (columnName {["firstName" := VStr "first_name"]} k
                   +:+ String "034"%char ("=$" +:+ pretty (i + 1)%nat))) /\
        values c !! i = Some v) /\
    sqlForPartialUpdate
      [("firstName", VStr "Test"); ("lastName", VStr "Tester"); ("age", VNum 30)]
      {["firstName" := VStr "first_name"; "lastName" := VStr "last_name"]}
    = inr {| setCols :=
               String "034"%char
                 ("first_name" +:+ String "034"%char
                    ("=$1, " +:+ String "034"%char
                       ("last_name" +:+ String "034"%char
                          ("=$2, " +:+ String "034"%char
                             ("age" +:+ String "034"%char "=$3")))));
             values := [VStr "Test"; VStr "Tester"; VNum 30] |}.
Proof.
  apply (sqlForPartialUpdate_assignments
           [("firstName", VStr "Test"); ("age", VNum 30)]
           {["firstName" := VStr "first_name"]}).
  discriminate.
Defined.

(** C2. On an empty update mapping [sqlForPartialUpdate] throws
    [BadRequestError], whatever the translation mapping; it returns no
    result. *)
Theorem sqlForPartialUpdate_empty (jsToSql : gmap string value) :
  sqlForPartialUpdate [] jsToSql = inl (BadRequestError "No data").
Proof. reflexivity. Qed.

(** C3, as stated, fails: a field whose entry in the translation mapping is
    the empty string keeps its own name, and the entry is not used. *)
Lemma entry_not_used_counterexample :
  ({["firstName" := VStr ""]} : gmap string value) !! "firstName" = Some (VStr "") /\
  sqlForPartialUpdate [("firstName", VStr "Test")] {["firstName" := VStr ""]}
  = inr {| setCols := dquote +:+ "firstName" +:+ dquote +:+ "=$1";
           values := [VStr "Test"] |} /\
  ~ (forall (jsToSql : gmap string value) colName t,
        jsToSql !! colName = Some t ->
        columnName jsToSql colName = toString t).
Proof.
  split; [reflexivity|]. split; [vm_compute; reflexivity|].
  intros H.
  specialize (H {["firstName" := VStr ""]} "firstName" (VStr "") eq_refl).
  vm_compute in H. discriminate H.
Qed.

(** A second departure from C3 as stated: a field without an entry of its
    own whose name every object inherits does not keep its name. *)
Example inherited_name_not_kept :
  (∅ : gmap string value) !! "toString" = None /\
  sqlForPartialUpdate [("toString", VStr "x")] ∅
  = inr {| setCols :=
             String "034"%char
               ("function toString() { [native code] }" +:+ String "034"%char "=$1");
           values := [VStr "x"] |}.
Proof. split; [reflexivity | vm_compute; reflexivity]. Qed.

(** C3, amended.  For every field of the update mapping, the column of its
    assignment is the translated name when the field has an entry in the
    translation mapping and that entry is truthy; it is the field name
    unchanged when the entry is falsy, and when the field has no entry and
    its name is not one that every object inherits from [Object.prototype].
    With translation [{firstName: "first_name"}] and input
    [{firstName: "Test", age: 30}] the output is
    [setCols = '"first_name"=$1, "age"=$2'] and [values = ["Test", 30]]. *)
Theorem columnName_resolution
    (dataToUpdate : object) (jsToSql : gmap string value) (c : compiled) :
  sqlForPartialUpdate dataToUpdate jsToSql = inr c ->
  (exists texts,
      setCols c = String.concat ", " texts /\
      forall (i : nat) k v,
        dataToUpdate !! i = Some (k, v) ->
        exists column,
          texts !! i
          = Some (String "034"%char
                    (column +:+ String "034"%char ("=$" +:+ pretty (i + 1)%nat))) /\
          (forall t, jsToSql !! k = Some t -> truthy t = true -> column = toString t) /\
          (forall t, jsToSql !! k = Some t -> truthy t = false -> column = k) /\
          (jsToSql !! k = None -> objectPrototype k = None -> column = k)) /\
  sqlForPartialUpdate [("firstName", VStr "Test"); ("age", VNum 30)]
    {["firstName" := VStr "first_name"]}
  = inr {| setCols :=
             String "034"%char
               ("first_name" +:+ String "034"%char
                  ("=$1, " +:+ String "034"%char ("age" +:+ String "034"%char "=$2")));
           values := [VStr "Test"; VNum 30] |}.
Proof.
  intros H. apply sqlForPartialUpdate_inr in H as [_ ->].
  split; [|vm_compute; reflexivity].
  exists (cols (keys dataToUpdate) jsToSql). split; [reflexivity|].
  intros i k v Hi. exists (columnName jsToSql k).
  rewrite Nat.add_1_r, <- assignment_text.
  split; [by apply cols_lookup with v|].
  rewrite columnName_cases.
  split; [|split].
  - intros t -> Ht. by rewrite Ht.
  - intros t -> Ht. by rewrite Ht.
  - by intros -> ->.
Qed.

Lemma columnName_resolution_witness :
  (exists texts,
      String "034"%char
        ("first_name" +:+ String "034"%char
           ("=$1, " +:+ String "034"%char ("country" +:+ String "034"%char "=$2")))
      = String.concat ", " texts /\
      forall (i : nat) k v,
        [("firstName", VStr "Test"); ("country", VStr "Neverland")] !! i = Some (k, v) ->
        exists column,
          texts !! i
          = Some (String "034"%char
                    (column +:+ String "034"%char ("=$" +:+ pretty (i + 1)%nat))) /\
          (forall t,
              ({["firstName" := VStr "first_name"]} : gmap string value) !! k = Some t ->
              truthy t = true -> column = toString t) /\
          (forall t,
              ({["firstName" := VStr "first_name"]} : gmap string value) !! k = Some t ->
              truthy t = false -> column = k) /\
          (({["firstName" := VStr "first_name"]} : gmap string value) !! k = None ->
           objectPrototype k = None -> column = k)) /\
  sqlForPartialUpdate [("firstName", VStr "Test"); ("age", VNum 30)]
    {["firstName" := VStr "first_name"]}
  = inr {| setCols :=
             String "034"%char
               ("first_name" +:+ String "034"%char
                  ("=$1, " +:+ String "034"%char ("age" +:+ String "034"%char "=$2")));
           values := [VStr "Test"; VNum 30] |}.
Proof.
  apply (columnName_resolution
           [("firstName", VStr "Test"); ("country", VStr "Neverland")]
           {["firstName" := VStr "first_name"]}
           {| setCols :=
                String "034"%char
                  ("first_name" +:+ String "034"%char
                     ("=$1, " +:+ String "034"%char
                        ("country" +:+ String "034"%char "=$2")));
              values := [VStr "Test"; VStr "Neverland"] |}).
  vm_compute. reflexivity.
Defined.

(** C9. When the translation mapping sends a field to a falsy value, the
    empty string for one, [jsToSql[colName] || colName] falls back to the
    field name: the assignment of that field names the field itself, not
    the mapped value. *)
Theorem falsy_entry_falls_back
    (dataToUpdate : object) (jsToSql : gmap string value) (colName : string) (t : value) :
  jsToSql !! colName = Some t ->
  truthy t = false ->
  truthy (VStr "") = false /\
  or (get jsToSql colName) (VStr colName) = VStr colName /\
  columnName jsToSql colName = colName /\
  (toString t <> colName -> columnName jsToSql colName <> toString t) /\
  forall (i : nat) v,
    dataToUpdate !! i = Some (colName, v) ->
    exists c assignments,
      sqlForPartialUpdate dataToUpdate jsToSql = inr c /\
      setCols c = String.concat ", " assignments /\
      assignments !! i = Some (assignment colName (i + 1)).
Proof.
  intros Hentry Hfalsy. split; [reflexivity|].
  assert (Hor : or (get jsToSql colName) (VStr colName) = VStr colName).
  { unfold or, get. rewrite Hentry. simpl. by rewrite Hfalsy. }
  assert (Hname : columnName jsToSql colName = colName).
  { unfold columnName. by rewrite Hor. }
  split; [exact Hor|]. split; [exact Hname|].
  split; [rewrite Hname; congruence|].
  intros i v Hi.
  assert (Hne : dataToUpdate <> []) by (intros ->; discriminate Hi).
  eexists _, (cols (keys dataToUpdate) jsToSql).
  split; [by apply sqlForPartialUpdate_nonempty|].
  split; [reflexivity|].
  rewrite Nat.add_1_r, (cols_lookup dataToUpdate jsToSql i colName v Hi).
  by rewrite Hname.
Qed.

Lemma falsy_entry_falls_back_witness :
  truthy (VStr "") = false /\
  or (get {["title" := VStr ""]} "title") (VStr "title") = VStr "title" /\
  columnName {["title" := VStr ""]} "title" = "title" /\
  (toString (VStr "") <> "title" ->
   columnName {["title" := VStr ""]} "title" <> toString (VStr "")) /\
  forall (i : nat) v,
    [("salary", VNum 5); ("title", VStr "x")] !! i = Some ("title", v) ->
    exists c assignments,
      sqlForPartialUpdate [("salary", VNum 5); ("title", VStr "x")] {["title" := VStr ""]}
      = inr c /\
      setCols c = String.concat ", " assignments /\
      assignments !! i = Some (assignment "title" (i + 1)).
Proof.
  apply (falsy_entry_falls_back [("salary", VNum 5); ("title", VStr "x")]
           {["title" := VStr ""]} "title" (VStr "")); reflexivity.
Defined.

End SqlFacts.

(* ===================================================================== *)
(** * Properties of the handler of GET /companies *)
(* ===================================================================== *)

Module CompaniesRouteFacts.
Import Js CompaniesRoute.

Lemma gt_NaN_l (x : number) : gt NaN x = false.
Proof. reflexivity. Qed.

Lemma gt_NaN_r (x : number) : gt x NaN = false.
Proof. by destruct x. Qed.

Lemma toBound_nonempty (Number : string -> number) (s : string) :
  truthy (VStr s) = true -> toBound Number (Some s) = Some (Number s).
Proof. intros H. unfold toBound. by rewrite H. Qed.

Lemma minAboveMax_NaN (a b : option number) :
  a = Some NaN \/ b = Some NaN -> minAboveMax a b = false.
Proof.
  intros [-> | ->]; simpl.
  - by destruct b.
  - destruct a as [x|]; [apply gt_NaN_r | reflexivity].
Qed.

(** A request without bounds reaches the finder with no bound. *)
Example no_bounds (Number : string -> number) :
  getCompanies Number (list string) (fun _ _ _ => inr ["c1"]) (Query (Some "c") None None)
  = ([FindAllCall (Some "c") None None], Json ["c1"]).
Proof. reflexivity. Qed.

(** C8. When [minEmployees] and [maxEmployees] are both supplied (as
    non-empty strings, which is what the handler takes for supplied) and
    the first exceeds the second as numbers, the handler ends with
    [BadRequestError] and has made no call to [Company.findAll].  The
    finder itself checks nothing about the bounds: with a minimum above the
    maximum it returns normally, with no row. *)
Theorem min_above_max_rejected
    (Number : string -> number) (companies : Type)
    (findAll : option string -> option number -> option number -> result companies)
    (q : query) (smin smax : string) :
  minEmployees q = Some smin ->
  maxEmployees q = Some smax ->
  truthy (VStr smin) = true ->
  truthy (VStr smax) = true ->
  gt (Number smin) (Number smax) = true ->
  getCompanies Number companies findAll q
  = ([], Next (BadRequestError "minEmployees must be less than maxEmployees")) /\
  forall (name : option string) (lo hi : Z) (t : Model.table),
    hi < lo ->
    Company.findAll name (Some lo) (Some hi) t = [].
Proof.
  intros Hmin Hmax Tmin Tmax Hgt. split.
  - unfold getCompanies, tryBlock. rewrite Hmin, Hmax.
    rewrite !toBound_nonempty by assumption. cbn [minAboveMax]. by rewrite Hgt.
  - intros name lo hi t Hlt. unfold Company.findAll, Model.select.
    induction t as [|r t IH]; [reflexivity|]. simpl. rewrite IH.
    replace (Model.whereClause _ r) with false; [reflexivity|].
    symmetry. unfold Model.whereClause, Company.predicates.
    rewrite forallb_app. apply andb_false_intro2. simpl.
    destruct (r !! "num_employees") as [[| | |n| |]|]; try reflexivity.
    destruct (Z.leb_spec lo n), (Z.leb_spec n hi); try reflexivity. lia.
Qed.

Lemma min_above_max_rejected_witness :
  getCompanies NumberOfDigits (list string) (fun _ _ _ => inr ["c1"])
    (Query None (Some "10") (Some "5"))
  = ([], Next (BadRequestError "minEmployees must be less than maxEmployees")) /\
  forall (name : option string) (lo hi : Z) (t : Model.table),
    hi < lo ->
    Company.findAll name (Some lo) (Some hi) t = [].
Proof.
  apply (min_above_max_rejected NumberOfDigits (list string) (fun _ _ _ => inr ["c1"])
           (Query None (Some "10") (Some "5")) "10" "5"); reflexivity.
Defined.

(** C10. When [minEmployees] or [maxEmployees] is a non-empty string that
    [Number] turns into [NaN], the comparison of the bounds is false (every
    comparison with [NaN] is), the handler does not reject the request, and
    [Company.findAll] is called, once, with the [NaN] bound. *)
Theorem nan_bound_reaches_finder
    (Number : string -> number) (companies : Type)
    (findAll : option string -> option number -> option number -> result companies)
    (q : query) (s : string) :
  minEmployees q = Some s \/ maxEmployees q = Some s ->
  truthy (VStr s) = true ->
  Number s = NaN ->
  (forall x, gt NaN x = false /\ gt x NaN = false) /\
  minAboveMax (toBound Number (minEmployees q)) (toBound Number (maxEmployees q)) = false /\
  exists call,
    getCompanies Number companies findAll q
    = ([call],
       match findAll (argName call) (argMin call) (argMax call) with
       | inr companies => Json companies
       | inl err => Next err
       end) /\
    argName call = name q /\
    argMin call = toBound Number (minEmployees q) /\
    argMax call = toBound Number (maxEmployees q) /\
    (minEmployees q = Some s -> argMin call = Some NaN) /\
    (maxEmployees q = Some s -> argMax call = Some NaN).
Proof.
  intros Hs Ts Hnan.
  assert (Hb : toBound Number (Some s) = Some NaN)
    by (rewrite toBound_nonempty by assumption; by rewrite Hnan).
  assert (Hcmp : minAboveMax (toBound Number (minEmployees q))
                   (toBound Number (maxEmployees q)) = false).
  { apply minAboveMax_NaN. destruct Hs as [-> | ->]; auto. }
  split; [intros x; split; [apply gt_NaN_l | apply gt_NaN_r]|].
  split; [exact Hcmp|].
  exists (FindAllCall (name q) (toBound Number (minEmployees q))
            (toBound Number (maxEmployees q))).
  unfold getCompanies, tryBlock. rewrite Hcmp.
  cbn [bind ret awaitFindAll fst snd app argName argMin argMax].
  split; [by destruct (findAll _ _ _)|].
  repeat split; try reflexivity.
  - by intros ->.
  - by intros ->.
Qed.

Lemma nan_bound_reaches_finder_witness :
  (forall x, gt NaN x = false /\ gt x NaN = false) /\
  minAboveMax (toBound NumberOfDigits (Some "lots")) (toBound NumberOfDigits (Some "5"))
  = false /\
  exists call,
    getCompanies NumberOfDigits (list string) (fun _ _ _ => inr ["c1"])
      (Query None (Some "lots") (Some "5"))
    = ([call],
       match (fun _ _ _ => inr ["c1"]) (argName call) (argMin call) (argMax call)
             return response (list string) with
       | inr companies => Json companies
       | inl err => Next err
       end) /\
    argName call = None /\
    argMin call = toBound NumberOfDigits (Some "lots") /\
    argMax call = toBound NumberOfDigits (Some "5") /\
    (Some "lots" = Some "lots" -> argMin call = Some NaN) /\
    (Some "5" = Some "lots" -> argMax call = Some NaN).
Proof.
  apply (nan_bound_reaches_finder NumberOfDigits (list string) (fun _ _ _ => inr ["c1"])
           (Query None (Some "lots") (Some "5")) "lots");
    [left; reflexivity | reflexivity | reflexivity].
Defined.

End CompaniesRouteFacts.

(* ===================================================================== *)
(** * Properties of the key-checked operations *)
(* ===================================================================== *)

Module EntityFacts.
Import Js Model.

Section Facts.

Variable keyCol : string.
Variable label : string.
Variable jsToSql : gmap string value.
Variable immutable : list string.
Variable notNull : list string.
Variable returning : list (string * string).

(** *** Assignments on a row *)




(** *** Lookup by key *)

Lemma lookupKey_absent (key : value) (t : table) :
  Forall (fun r => r !! keyCol <> Some key) t -> lookupKey keyCol key t = None.
Proof.
  unfold lookupKey. induction 1 as [|r t Hr _ IH]; [reflexivity|].
  simpl. unfold hasKey at 1. by rewrite bool_decide_eq_false_2.
Qed.

Lemma lookupKey_Some (key : value) (t : table) (r : row) :
  lookupKey keyCol key t = Some r -> r ∈ t /\ r !! keyCol = Some key.
Proof.
  intros H. apply find_some in H as [Hin Hkey]. split.
  - by apply list_elem_of_In.
  - unfold hasKey in Hkey. by apply bool_decide_eq_true in Hkey.
Qed.

(** *** The storage engine's UPDATE *)





(** *** The assignments of a payload *)






(** *** The outward shape *)





(** ** The claims on the key-checked operations *)



(** C5. When no stored row has the key, [get], [update] and [remove] each
    fail with NotFound, leave the table as it was, and have issued nothing
    but the lookup: no update and no deletion was sent. *)
Theorem missing_key_not_found (key : value) (data : object) (t : table) :
  Forall (fun r => r !! keyCol <> Some key) t ->
  (returned (get keyCol label returning key t)
   = inl (NotFoundError ("No " +:+ label +:+ ": " +:+ toString key)) /\
   stored (get keyCol label returning key t) = t /\
   Forall (fun s => isMutation s = false) (issued (get keyCol label returning key t))) /\
  (returned (update keyCol label jsToSql immutable notNull returning key data t)
   = inl (NotFoundError ("No " +:+ label +:+ ": " +:+ toString key)) /\
   stored (update keyCol label jsToSql immutable notNull returning key data t) = t /\
   Forall (fun s => isMutation s = false)
     (issued (update keyCol label jsToSql immutable notNull returning key data t))) /\
  (returned (remove keyCol label key t)
   = inl (NotFoundError ("No " +:+ label +:+ ": " +:+ toString key)) /\
   stored (remove keyCol label key t) = t /\
   Forall (fun s => isMutation s = false) (issued (remove keyCol label key t))).
Proof.
  intros Habsent. apply lookupKey_absent in Habsent.
  unfold get, update, remove. rewrite Habsent. cbn [returned stored issued].
  repeat split; by repeat constructor.
Qed.

End Facts.

(** The tests of [models/job.test.js] on [get], [update] and [remove]. *)
Example test_get_works :
  returned (Job.get (VNum 1) Job.testJobs)
  = inr (Job.jobJson 1 "j1" (VNum 100000) (VStr "0.1") "c1").
Proof. vm_compute. reflexivity. Qed.

Example test_update_works :
  returned (Job.update (VNum 1)
              [("title", VStr "new"); ("salary", VNum 100000); ("equity", VStr "0.5")]
              Job.testJobs)
  = inr (Job.jobJson 1 "new" (VNum 100000) (VStr "0.5") "c1").
Proof. vm_compute. reflexivity. Qed.

Example test_update_stored :
  lookupKey "id" (VNum 1)
    (stored (Job.update (VNum 1)
               [("title", VStr "new"); ("salary", VNum 100000); ("equity", VStr "0.5")]
               Job.testJobs))
  = Some (Job.job 1 "new" (VNum 100000) (VStr "0.5") "c1").
Proof. vm_compute. reflexivity. Qed.

Example test_update_null_fields :
  returned (Job.update (VNum 1)
              [("title", VStr "new"); ("salary", VNull); ("equity", VNull)]
              Job.testJobs)
  = inr (Job.jobJson 1 "new" VNull VNull "c1").
Proof. vm_compute. reflexivity. Qed.

Example test_update_no_data :
  returned (Job.update (VNum 1) [] Job.testJobs) = inl (BadRequestError "No data").
Proof. vm_compute. reflexivity. Qed.

Example test_update_company_handle :
  returned (Job.update (VNum 1) [("companyHandle", VStr "c2")] Job.testJobs)
  = inl (BadRequestError "Immutable field").
Proof. vm_compute. reflexivity. Qed.

Example test_remove_works :
  lookupKey "id" (VNum 1) (stored (Job.remove (VNum 1) Job.testJobs)) = None.
Proof. vm_compute. reflexivity. Qed.


Lemma missing_key_not_found_witness :
  (returned (Job.get (VNum 0) Job.testJobs) = inl (NotFoundError "No job: 0") /\
   stored (Job.get (VNum 0) Job.testJobs) = Job.testJobs /\
   Forall (fun s => isMutation s = false) (issued (Job.get (VNum 0) Job.testJobs))) /\
  (returned (Job.update (VNum 0) [("title", VStr "new")] Job.testJobs)
   = inl (NotFoundError "No job: 0") /\
   stored (Job.update (VNum 0) [("title", VStr "new")] Job.testJobs) = Job.testJobs /\
   Forall (fun s => isMutation s = false)
     (issued (Job.update (VNum 0) [("title", VStr "new")] Job.testJobs))) /\
  (returned (Job.remove (VNum 0) Job.testJobs) = inl (NotFoundError "No job: 0") /\
   stored (Job.remove (VNum 0) Job.testJobs) = Job.testJobs /\
   Forall (fun s => isMutation s = false) (issued (Job.remove (VNum 0) Job.testJobs))).
Proof.
  apply (missing_key_not_found "id" "job" Job.jsToSql Job.immutable Job.notNull
           Job.returning (VNum 0) [("title", VStr "new")] Job.testJobs).
  apply (bool_decide_unpack _). vm_compute. exact I.
Defined.

End EntityFacts.

(* ===================================================================== *)
(** * Properties of the filtered finder *)
(* ===================================================================== *)

Module FinderFacts.
Import Js Model.

(** *** Matching *)

Lemma append_cons (c : ascii) (s rest : string) :
  String c s +:+ rest = String c (s +:+ rest).
Proof. reflexivity. Qed.

Lemma append_nil (rest : string) : "" +:+ rest = rest.
Proof. reflexivity. Qed.

Lemma prefix_app (needle hay : string) :
  String.prefix needle hay = true <-> exists rest, hay = needle +:+ rest.
Proof.
  revert needle. induction hay as [|d hay IH]; intros [|c needle]; simpl.
  - split; [intros _; by exists "" | reflexivity].
  - split; [discriminate | intros [rest [=]]].
  - split; [intros _; by exists (String d hay) | reflexivity].
  - setoid_rewrite append_cons.
    destruct (Ascii.ascii_dec c d) as [->|Hne].
    + rewrite IH. split; intros [rest Hrest]; exists rest; congruence.
    + split; [discriminate | intros [rest Hrest]; congruence].
Qed.

(** [contains] is the occurrence of [needle] somewhere in [hay]. *)
Lemma contains_occurs (needle hay : string) :
  contains needle hay = true <-> exists before after, hay = before +:+ needle +:+ after.
Proof.
  induction hay as [|d hay IH].
  - change (contains needle "") with (String.prefix needle "" || false).
    rewrite orb_false_r, prefix_app. split.
    + intros [rest Hrest]. by exists "", rest.
    + intros [before [after H]]. destruct before; [by exists after|discriminate].
  - change (contains needle (String d hay))
      with (String.prefix needle (String d hay) || contains needle hay).
    rewrite orb_true_iff, prefix_app, IH. split.
    + intros [[rest Hrest] | [before [after H]]].
      * by exists "", rest.
      * exists (String d before), after. by rewrite append_cons, H.
    + intros [before [after H]]. destruct before as [|b before].
      * left. by exists after.
      * right. exists before, after. rewrite append_cons in H. congruence.
Qed.

Ltac wrong_cell :=
  split; [discriminate | intros [? [Hcell _]]; discriminate Hcell].

Lemma holds_Contains (r : row) (column needle : string) :
  holds (Contains column needle) r = true
  <-> exists text, r !! column = Some (VStr text) /\
                   contains (lower needle) (lower text) = true.
Proof.
  simpl. destruct (r !! column) as [[| | | |text|]|]; try wrong_cell.
  split.
  - intros H. by exists text.
  - by intros [text' [[= <-] H]].
Qed.

Lemma holds_AtLeast (r : row) (column : string) (bound : Z) :
  holds (AtLeast column bound) r = true
  <-> exists n, r !! column = Some (VNum n) /\ bound <= n.
Proof.
  simpl. destruct (r !! column) as [[| | |n| |]|]; try wrong_cell.
  split.
  - intros H. exists n. split; [reflexivity | by apply Z.leb_le].
  - intros [m [[= <-] H]]. by apply Z.leb_le.
Qed.

Lemma holds_AtMost (r : row) (column : string) (bound : Z) :
  holds (AtMost column bound) r = true
  <-> exists n, r !! column = Some (VNum n) /\ n <= bound.
Proof.
  simpl. destruct (r !! column) as [[| | |n| |]|]; try wrong_cell.
  split.
  - intros H. exists n. split; [reflexivity | by apply Z.leb_le].
  - intros [m [[= <-] H]]. by apply Z.leb_le.
Qed.

Lemma above_zero (q : Q) : negb (Qle_bool q 0) = true <-> (0 < q)%Q.
Proof.
  rewrite negb_true_iff, <- not_true_iff_false, Qle_bool_iff. split.
  - apply Qnot_le_lt.
  - apply Qlt_not_le.
Qed.

Lemma holds_Positive (r : row) (column : string) :
  holds (Positive column) r = true
  <-> exists d q, r !! column = Some (VStr d) /\ decimalValue d = Some q /\ (0 < q)%Q.
Proof.
  simpl. destruct (r !! column) as [[| | | |d|]|];
    try (split; [discriminate | intros [? [? [Hcell _]]]; discriminate Hcell]).
  split.
  - destruct (decimalValue d) as [q|] eqn:Hd; [|discriminate].
    intros H. exists d, q. repeat split; [exact Hd | by apply above_zero].
  - intros [d' [q [[= <-] [-> H]]]]. by apply above_zero.
Qed.

(** *** Selection *)

Lemma select_nil (t : table) : select [] t = t.
Proof.
  unfold select, whereClause. simpl.
  induction t as [|r t IH]; [reflexivity|]. simpl. by rewrite IH.
Qed.

Lemma select_single (p : predicate) (t : table) :
  select [p] t = List.filter (holds p) t.
Proof.
  unfold select, whereClause. simpl.
  induction t as [|r t IH]; [reflexivity|]. simpl.
  rewrite andb_true_r, IH. reflexivity.
Qed.

Lemma select_app (ps qs : list predicate) (t : table) :
  select (ps ++ qs) t = select ps (select qs t).
Proof.
  unfold select, whereClause.
  induction t as [|r t IH]; [reflexivity|]. simpl.
  rewrite forallb_app, IH.
  destruct (forallb _ qs) eqn:Hq; simpl.
  - by rewrite andb_true_r.
  - by rewrite andb_false_r.
Qed.

Lemma elem_of_select (ps : list predicate) (t : table) (r : row) :
  r ∈ select ps t <-> r ∈ t /\ Forall (fun p => holds p r = true) ps.
Proof.
  unfold select, whereClause.
  rewrite list_elem_of_In, filter_In, forallb_forall, <- list_elem_of_In.
  rewrite Forall_forall. setoid_rewrite list_elem_of_In. reflexivity.
Qed.

Lemma elem_of_select_app (ps qs : list predicate) (t : table) (r : row) :
  r ∈ select (ps ++ qs) t <-> r ∈ select ps t /\ r ∈ select qs t.
Proof. rewrite !elem_of_select, Forall_app. tauto. Qed.

(** The tests of [models/job.test.js] on [findAll]. *)
Example test_findAll_no_filter :
  Job.findAll None None None Job.testJobs = Job.testJobs.
Proof. vm_compute. reflexivity. Qed.

Example test_findAll_title :
  Job.findAll (Some "j1") None None Job.testJobs
  = [Job.job 1 "j1" (VNum 100000) (VStr "0.1") "c1"].
Proof. vm_compute. reflexivity. Qed.

Example test_findAll_minSalary :
  Job.findAll None (Some 200000) None Job.testJobs
  = [Job.job 2 "j2" (VNum 200000) (VStr "0.2") "c2";
     Job.job 3 "j3" (VNum 300000) (VStr "0.3") "c3"].
Proof. vm_compute. reflexivity. Qed.

Example test_findAll_hasEquity :
  Job.findAll None None (Some true) Job.testJobs = Job.testJobs.
Proof. vm_compute. reflexivity. Qed.

Example findAll_hasEquity_drops_null_and_zero :
  Job.findAll None None (Some true)
    [Job.job 4 "j4" VNull VNull "c1"; Job.job 5 "j5" (VNum 1) (VStr "0") "c1";
     Job.job 6 "j6" (VNum 2) (VStr "0.05") "c1"; Job.job 7 "j7" (VNum 3) (VStr "0.0") "c1"]
  = [Job.job 6 "j6" (VNum 2) (VStr "0.05") "c1"].
Proof. vm_compute. reflexivity. Qed.

Example findAll_title_ignores_case :
  Job.findAll (Some "J1") None None Job.testJobs
  = [Job.job 1 "j1" (VNum 100000) (VStr "0.1") "c1"].
Proof. vm_compute. reflexivity. Qed.

(** ** The claims on the finder *)

(** C6. Over any table: (1) without filters the predicate list is empty,
    the query has no [WHERE], and every row is returned; (2) each filter
    that is present (for [hasEquity]: requested) stands for exactly one
    predicate, and a row is returned exactly when it is stored and
    satisfies all of them; (3) one filter alone returns exactly the rows
    its predicate holds of; (4) the rows returned under several filters are
    those returned under each of them alone, kept in stored order. *)
Theorem finder_conjoins_present_filters (t : table) :
  (Job.predicates None None None = [] /\ Job.findAll None None None t = t /\
   Company.predicates None None None = [] /\ Company.findAll None None None t = t) /\
  (forall title minSalary hasEquity,
      length (Job.predicates title minSalary hasEquity)
      = (supplied title + supplied minSalary
         + (if Job.equityRequested hasEquity then 1 else 0))%nat /\
      forall r, r ∈ Job.findAll title minSalary hasEquity t
                <-> r ∈ t /\
                    Forall (fun p => holds p r = true)
                      (Job.predicates title minSalary hasEquity)) /\
  (forall name minEmployees maxEmployees,
      length (Company.predicates name minEmployees maxEmployees)
      = (supplied name + supplied minEmployees + supplied maxEmployees)%nat /\
      forall r, r ∈ Company.findAll name minEmployees maxEmployees t
                <-> r ∈ t /\
                    Forall (fun p => holds p r = true)
                      (Company.predicates name minEmployees maxEmployees)) /\
  ((forall title,
       Job.findAll (Some title) None None t = List.filter (holds (Contains "title" title)) t) /\
   (forall minSalary,
       Job.findAll None (Some minSalary) None t
       = List.filter (holds (AtLeast "salary" minSalary)) t) /\
   Job.findAll None None (Some true) t = List.filter (holds (Positive "equity")) t /\
   (forall name,
       Company.findAll (Some name) None None t = List.filter (holds (Contains "name" name)) t) /\
   (forall minEmployees,
       Company.findAll None (Some minEmployees) None t
       = List.filter (holds (AtLeast "num_employees" minEmployees)) t) /\
   (forall maxEmployees,
       Company.findAll None None (Some maxEmployees) t
       = List.filter (holds (AtMost "num_employees" maxEmployees)) t)) /\
  (forall title minSalary hasEquity,
      (forall r, r ∈ Job.findAll title minSalary hasEquity t
                 <-> r ∈ Job.findAll title None None t /\
                     r ∈ Job.findAll None minSalary None t /\
                     r ∈ Job.findAll None None hasEquity t) /\
      Job.findAll title minSalary hasEquity t
      = Job.findAll title None None
          (Job.findAll None minSalary None (Job.findAll None None hasEquity t))) /\
  (forall name minEmployees maxEmployees,
      (forall r, r ∈ Company.findAll name minEmployees maxEmployees t
                 <-> r ∈ Company.findAll name None None t /\
                     r ∈ Company.findAll None minEmployees None t /\
                     r ∈ Company.findAll None None maxEmployees t) /\
      Company.findAll name minEmployees maxEmployees t
      = Company.findAll name None None
          (Company.findAll None minEmployees None (Company.findAll None None maxEmployees t))).
Proof.
  split; [|split; [|split; [|split; [|split]]]].
  - unfold Job.findAll, Company.findAll.
    change (Job.predicates None None None) with (@nil predicate).
    change (Company.predicates None None None) with (@nil predicate).
    by rewrite select_nil.
  - intros title minSalary hasEquity. split.
    + by destruct title, minSalary, hasEquity as [[|]|].
    + intros r. apply elem_of_select.
  - intros name minEmployees maxEmployees. split.
    + by destruct name, minEmployees, maxEmployees.
    + intros r. apply elem_of_select.
  - repeat split; intros; apply select_single.
  - intros title minSalary hasEquity.
    unfold Job.findAll, Job.predicates. cbn [whenPresent Job.equityRequested app].
    rewrite !app_nil_r. split.
    + intros r. rewrite !elem_of_select_app. reflexivity.
    + by rewrite !select_app.
  - intros name minEmployees maxEmployees.
    unfold Company.findAll, Company.predicates. cbn [whenPresent app].
    rewrite !app_nil_r. split.
    + intros r. rewrite !elem_of_select_app. reflexivity.
    + by rewrite !select_app.
Qed.

(** C7. With [hasEquity] true the jobs returned are exactly the rows, among
    those the other filters keep, whose equity is a non-null decimal above
    zero; alone, the filter keeps exactly those rows of the table, so a row
    with a null or a zero equity is left out.  With [hasEquity] false or
    missing the clause has no equity predicate and the result is the one
    of the other filters: alone, every row. *)
Theorem hasEquity_filter (title : option string) (minSalary : option Z) (t : table) :
  (forall r,
      r ∈ Job.findAll title minSalary (Some true) t
      <-> r ∈ Job.findAll title minSalary None t /\
          exists d q, r !! "equity" = Some (VStr d) /\ decimalValue d = Some q /\ (0 < q)%Q) /\
  (forall r,
      r ∈ Job.findAll None None (Some true) t
      <-> r ∈ t /\
          exists d q, r !! "equity" = Some (VStr d) /\ decimalValue d = Some q /\ (0 < q)%Q) /\
  Job.findAll None None (Some true) t
  = List.filter (fun r => negb (bool_decide (r !! "equity" = Some VNull))
                          && holds (Positive "equity") r) t /\
  decimalValue "0" = Some (0 # 1) /\
  Job.predicates title minSalary (Some false) = Job.predicates title minSalary None /\
  Forall (fun p => p <> Positive "equity") (Job.predicates title minSalary None) /\
  Job.findAll title minSalary (Some false) t = Job.findAll title minSalary None t /\
  Job.findAll None None (Some false) t = t /\
  Job.findAll None None None t = t.
Proof.
  assert (Hall : forall r,
             r ∈ Job.findAll title minSalary (Some true) t
             <-> r ∈ Job.findAll title minSalary None t /\
                 exists d q, r !! "equity" = Some (VStr d) /\ decimalValue d = Some q /\
                             (0 < q)%Q).
  { intros r. unfold Job.findAll, Job.predicates. cbn [Job.equityRequested].
    rewrite !app_assoc, (elem_of_select_app _ [Positive "equity"]), app_nil_r.
    rewrite (elem_of_select [Positive "equity"]), Forall_singleton, holds_Positive.
    rewrite (elem_of_select (_ ++ _)). tauto. }
  split; [exact Hall|].
  split.
  { intros r. unfold Job.findAll. change (Job.predicates None None (Some true))
      with [Positive "equity"].
    by rewrite elem_of_select, Forall_singleton, holds_Positive. }
  split.
  { unfold Job.findAll. change (Job.predicates None None (Some true))
      with [Positive "equity"].
    rewrite select_single. apply filter_ext. intros r. simpl.
    by destruct (r !! "equity") as [[| | | |d|]|]. }
  split; [reflexivity|].
  split; [reflexivity|].
  split.
  { unfold Job.predicates. destruct title, minSalary; by repeat constructor. }
  split; [reflexivity|].
  unfold Job.findAll.
  change (Job.predicates None None (Some false)) with (@nil predicate).
  change (Job.predicates None None None) with (@nil predicate).
  by rewrite select_nil.
Qed.

End FinderFacts.

(* ===================================================================== *)
(** * More on [sqlForPartialUpdate] *)
(* ===================================================================== *)

Module SqlMore.
Import Js Sql Text.

(** *** Strings *)

Lemma app_cons_string (x : ascii) (a b : string) :
  String x a +:+ b = String x (a +:+ b).
Proof. reflexivity. Qed.

Lemma app_empty_l (b : string) : "" +:+ b = b.
Proof. reflexivity. Qed.

Lemma append_assoc (a b c : string) : (a +:+ b) +:+ c = a +:+ (b +:+ c).
Proof.
  induction a as [|x a IH]; [reflexivity|].
  by rewrite !app_cons_string, IH.
Qed.

Lemma append_empty_r (a : string) : a +:+ "" = a.
Proof.
  induction a as [|x a IH]; [reflexivity|].
  by rewrite app_cons_string, IH.
Qed.

Lemma append_cancel_l (a b c : string) : a +:+ b = a +:+ c -> b = c.
Proof.
  induction a as [|x a IH]; [by rewrite !app_empty_l|].
  rewrite !app_cons_string. intros [= H]. by apply IH.
Qed.

Lemma concat_two (sep x y : string) (l : list string) :
  String.concat sep (x :: y :: l) = x +:+ sep +:+ String.concat sep (y :: l).
Proof. reflexivity. Qed.

Lemma concat_app (sep : string) (l1 l2 : list string) :
  l1 <> [] -> l2 <> [] ->
  String.concat sep (l1 ++ l2)%list
  = String.concat sep l1 +:+ sep +:+ String.concat sep l2.
Proof.
  intros H1 H2. induction l1 as [|x l1 IH]; [congruence|].
  destruct l1 as [|y l1].
  - destruct l2 as [|z l2]; [congruence|]. reflexivity.
  - change ((x :: y :: l1) ++ l2)%list with (x :: y :: (l1 ++ l2))%list.
    rewrite !concat_two. change (y :: l1 ++ l2)%list with ((y :: l1) ++ l2)%list.
    rewrite IH by congruence. by rewrite !append_assoc.
Qed.

(** The first double quote of a text splits it in one way only. *)
Lemma first_quote (a b r r' : string) :
  quoteFree a -> quoteFree b ->
  a +:+ dquote +:+ r = b +:+ dquote +:+ r' -> a = b /\ r = r'.
Proof.
  unfold quoteFree, dquote. revert b.
  induction a as [|x a IH]; intros [|y b] Ha Hb;
    rewrite ?app_cons_string, ?app_empty_l; intros H.
  - by injection H as ->.
  - injection H as <- _. simpl in Hb. discriminate Hb.
  - injection H as -> _. simpl in Ha. discriminate Ha.
  - injection H as -> H. simpl in Ha, Hb.
    apply orb_false_elim in Ha as [_ Ha]. apply orb_false_elim in Hb as [_ Hb].
    by destruct (IH b Ha Hb H) as [-> ->].
Qed.

Lemma assignment_then (column : string) (position : nat) (rest : string) :
  assignment column position +:+ rest
  = dquote +:+ column +:+ dquote +:+ ("=$" +:+ pretty position +:+ rest).
Proof. unfold assignment. by rewrite !append_assoc. Qed.

(** Two assignments at the same position, each followed by some text, give
    the same text only for the same column and the same rest. *)
Lemma assignment_then_inj (a b : string) (position : nat) (r r' : string) :
  quoteFree a -> quoteFree b ->
  assignment a position +:+ r = assignment b position +:+ r' ->
  a = b /\ r = r'.
Proof.
  intros Ha Hb. rewrite !assignment_then. intros H.
  apply append_cancel_l in H.
  destruct (first_quote _ _ _ _ Ha Hb H) as [-> H'].
  split; [reflexivity|].
  by do 2 apply append_cancel_l in H'.
Qed.

Lemma zip_assignment_cons (a : string) (cs : list string) (start : nat) :
  zip_with assignment (a :: cs) (seq start (length (a :: cs)))
  = assignment a start :: zip_with assignment cs (seq (S start) (length cs)).
Proof. reflexivity. Qed.

Lemma zip_assignments_inj (cs1 cs2 : list string) (start : nat) :
  Forall quoteFree cs1 -> Forall quoteFree cs2 ->
  cs1 <> [] -> cs2 <> [] ->
  String.concat ", " (zip_with assignment cs1 (seq start (length cs1)))
  = String.concat ", " (zip_with assignment cs2 (seq start (length cs2))) ->
  cs1 = cs2.
Proof.
  revert cs2 start. induction cs1 as [|a cs1 IH]; [congruence|].
  intros [|b cs2] start H1 H2 _ Hne; [congruence|].
  apply Forall_cons in H1 as [Ha H1]. apply Forall_cons in H2 as [Hb H2].
  rewrite !zip_assignment_cons.
  destruct cs1 as [|a' cs1], cs2 as [|b' cs2].
  - cbn [zip_with String.concat length seq].
    rewrite <- (append_empty_r (assignment a start)),
            <- (append_empty_r (assignment b start)).
    intros H. by destruct (assignment_then_inj _ _ _ _ _ Ha Hb H) as [-> _].
  - rewrite zip_assignment_cons.
    cbn [zip_with String.concat length seq].
    rewrite <- (append_empty_r (assignment a start)) at 1.
    intros H. destruct (assignment_then_inj _ _ _ _ _ Ha Hb H) as [_ H'].
    discriminate H'.
  - rewrite zip_assignment_cons.
    cbn [zip_with String.concat length seq].
    rewrite <- (append_empty_r (assignment b start)) at 1.
    intros H. destruct (assignment_then_inj _ _ _ _ _ Ha Hb H) as [_ H'].
    discriminate H'.
  - rewrite !(zip_assignment_cons _ _ (S start)), !concat_two,
      <- !(zip_assignment_cons _ _ (S start)).
    intros H. destruct (assignment_then_inj _ _ _ _ _ Ha Hb H) as [-> H'].
    apply append_cancel_l in H'. f_equal.
    apply (IH (b' :: cs2) (S start)); [assumption..|congruence|congruence|].
    exact H'.
Qed.

(** ** Composition, escaping and the translation table *)

(** X1. Fields added after those of a payload leave the compiled text of the
    earlier fields in place, with the same placeholders; the added fields
    follow after [", "] and are numbered from [n + 1], and their values
    follow the earlier values. *)
Theorem appended_fields_keep_placeholders
    (d1 d2 : object) (jsToSql : gmap string value) :
  d1 <> [] -> d2 <> [] ->
  exists c1 c,
    sqlForPartialUpdate d1 jsToSql = inr c1 /\
    sqlForPartialUpdate (d1 ++ d2)%list jsToSql = inr c /\
    setCols c
    = setCols c1 +:+ ", "
      +:+ String.concat ", "
            (zip_with assignment (columnName jsToSql <$> keys d2)
               (seq (length d1 + 1) (length d2))) /\
    values c = (values c1 ++ Js.values d2)%list.
Proof.
  intros H1 H2.
  assert (H12 : (d1 ++ d2)%list <> []) by (destruct d1; [congruence|discriminate]).
  eexists _, _.
  split; [by apply SqlFacts.sqlForPartialUpdate_nonempty|].
  split; [by apply SqlFacts.sqlForPartialUpdate_nonempty|].
  cbn [setCols values]. split.
  - unfold keys. rewrite fmap_app. unfold cols. rewrite imap_app.
    rewrite concat_app.
    + do 3 f_equal. rewrite length_fmap.
      rewrite <- (length_fmap fst d2), Nat.add_1_r.
      apply (SqlFacts.imap_assignment_seq jsToSql (d2.*1) (length d1)).
    + destruct d1; [congruence|discriminate].
    + destruct d2; [congruence|discriminate].
  - unfold Js.values. apply fmap_app.
Qed.

Lemma appended_fields_keep_placeholders_witness :
  exists c1 c,
    sqlForPartialUpdate [("name", VStr "New")] {["numEmployees" := VStr "num_employees"; "logoUrl" := VStr "logo_url"]} = inr c1 /\
    sqlForPartialUpdate ([("name", VStr "New")] ++ [("numEmployees", VNum 10)])%list
      {["numEmployees" := VStr "num_employees"; "logoUrl" := VStr "logo_url"]} = inr c /\
    setCols c
    = setCols c1 +:+ ", "
      +:+ String.concat ", "
            (zip_with assignment (columnName {["numEmployees" := VStr "num_employees"; "logoUrl" := VStr "logo_url"]} <$> ["numEmployees"])
               (seq 2 1)) /\
    values c = (values c1 ++ [VNum 10])%list.
Proof.
  apply (appended_fields_keep_placeholders [("name", VStr "New")]
           [("numEmployees", VNum 10)] {["numEmployees" := VStr "num_employees"; "logoUrl" := VStr "logo_url"]}); discriminate.
Defined.

(** A name that every object inherits holds no double quote. *)
Lemma objectPrototype_quoteFree (k : string) (inherited : value) :
  objectPrototype k = Some inherited -> quoteFree k.
Proof.
  unfold objectPrototype.
  destruct (String.eqb k "__proto__") eqn:E1;
    [apply String.eqb_eq in E1 as ->; reflexivity|].
  destruct (String.eqb k "constructor") eqn:E2;
    [apply String.eqb_eq in E2 as ->; reflexivity|].
  case_bool_decide as Hin; [|discriminate]. intros _.
  clear E1 E2. revert k Hin. apply Forall_forall. by repeat constructor.
Qed.

Lemma occurs_after (c : ascii) (a b : string) : occurs c (a +:+ String c b) = true.
Proof.
  induction a as [|x a IH].
  - rewrite app_empty_l. simpl. by rewrite Ascii.eqb_refl.
  - rewrite app_cons_string. simpl. by rewrite IH, orb_true_r.
Qed.

(** X2. A double quote in a field name is not escaped: a single field whose
    (untranslated) name is [c1"=$p, "c2] compiles to the text of two
    assignments, one of column [c1] to placeholder [$p] and one of column
    [c2] to placeholder [$1]. *)
Theorem quote_in_field_name_not_escaped
    (c1 c2 : string) (p : nat) (v : value) (jsToSql : gmap string value) :
  jsToSql !! (c1 +:+ dquote +:+ "=$" +:+ pretty p +:+ ", " +:+ dquote +:+ c2) = None ->
  sqlForPartialUpdate
    [(c1 +:+ dquote +:+ "=$" +:+ pretty p +:+ ", " +:+ dquote +:+ c2, v)] jsToSql
  = inr {| setCols := String.concat ", " [assignment c1 p; assignment c2 1];
           values := [v] |}.
Proof.
  intros Hnone. unfold sqlForPartialUpdate, cols. cbn [keys fmap list_fmap fst length
    Nat.eqb imap Js.values snd String.concat].
  rewrite SqlFacts.columnName_cases, Hnone.
  destruct (objectPrototype _) as [inherited|] eqn:Hproto.
  { apply objectPrototype_quoteFree in Hproto. unfold quoteFree in Hproto.
    unfold dquote in Hproto. by rewrite app_cons_string, occurs_after in Hproto. }
  do 2 f_equal. unfold assignment. cbn [Nat.add]. by rewrite !append_assoc.
Qed.

Lemma quote_in_field_name_not_escaped_witness :
  sqlForPartialUpdate
    [("title" +:+ dquote +:+ "=$" +:+ pretty 1%nat +:+ ", " +:+ dquote +:+ "id", VStr "x")]
    {["firstName" := VStr "first_name"]}
  = inr {| setCols := String.concat ", " [assignment "title" 1; assignment "id" 1];
           values := [VStr "x"] |}.
Proof.
  apply (quote_in_field_name_not_escaped "title" "id" 1 (VStr "x") {["firstName" := VStr "first_name"]}).
  vm_compute. reflexivity.
Defined.

(** X3. When no column name holds a double quote, the compiled text tells
    the columns: two payloads, each with its translation table, that
    compile to the same [setCols] update the same columns in the same
    order, and so have the same number of fields. *)
Theorem setCols_determines_columns
    (d1 d2 : object) (j1 j2 : gmap string value) (c1 c2 : compiled) :
  sqlForPartialUpdate d1 j1 = inr c1 ->
  sqlForPartialUpdate d2 j2 = inr c2 ->
  Forall quoteFree (columnName j1 <$> keys d1) ->
  Forall quoteFree (columnName j2 <$> keys d2) ->
  setCols c1 = setCols c2 ->
  columnName j1 <$> keys d1 = columnName j2 <$> keys d2 /\
  length (values c1) = length (values c2).
Proof.
  intros E1 E2 Q1 Q2 Heq.
  apply SqlFacts.sqlForPartialUpdate_inr in E1 as [N1 ->].
  apply SqlFacts.sqlForPartialUpdate_inr in E2 as [N2 ->].
  cbn [setCols values] in *.
  rewrite !SqlFacts.cols_zip in Heq.
  assert (L1 : length d1 = length (columnName j1 <$> keys d1))
    by (unfold keys; by rewrite !length_fmap).
  assert (L2 : length d2 = length (columnName j2 <$> keys d2))
    by (unfold keys; by rewrite !length_fmap).
  rewrite L1, L2 in Heq.
  apply zip_assignments_inj in Heq; try assumption.
  - split; [exact Heq|]. rewrite !length_fmap, L1, L2. by rewrite Heq.
  - destruct d1; [congruence|discriminate].
  - destruct d2; [congruence|discriminate].
Qed.

Lemma setCols_determines_columns_witness :
  columnName {["numEmployees" := VStr "num_employees"; "logoUrl" := VStr "logo_url"]} <$> keys [("numEmployees", VNum 10); ("name", VStr "A")]
  = columnName ∅ <$> keys [("num_employees", VNull); ("name", VStr "B")] /\
  length [VNum 10; VStr "A"] = length [VNull; VStr "B"].
Proof.
  apply (setCols_determines_columns
           [("numEmployees", VNum 10); ("name", VStr "A")]
           [("num_employees", VNull); ("name", VStr "B")]
           {["numEmployees" := VStr "num_employees"; "logoUrl" := VStr "logo_url"]} ∅
           {| setCols := String.concat ", "
                           [assignment "num_employees" 1; assignment "name" 2];
              values := [VNum 10; VStr "A"] |}
           {| setCols := String.concat ", "
                           [assignment "num_employees" 1; assignment "name" 2];
              values := [VNull; VStr "B"] |}).
  - vm_compute. reflexivity.
  - vm_compute. reflexivity.
  - repeat constructor.
  - repeat constructor.
  - reflexivity.
Defined.

(** X4. Only the entries of the translation table under the payload's own
    field names count: two tables that read the same at every field of
    the payload give the same result, so a table may list fields that are
    not being updated. *)
Theorem unused_translations_ignored
    (dataToUpdate : object) (j1 j2 : gmap string value) :
  (forall k, k ∈ keys dataToUpdate -> get j1 k = get j2 k) ->
  sqlForPartialUpdate dataToUpdate j1 = sqlForPartialUpdate dataToUpdate j2.
Proof.
  intros Hagree. unfold sqlForPartialUpdate.
  destruct (Nat.eqb _ 0); [reflexivity|]. do 3 f_equal.
  unfold cols. apply imap_ext. intros i k Hk. unfold columnName.
  rewrite Hagree; [reflexivity|]. by apply list_elem_of_lookup_2 with i.
Qed.

Lemma unused_translations_ignored_witness :
  sqlForPartialUpdate [("numEmployees", VNum 10)] {["numEmployees" := VStr "num_employees"; "logoUrl" := VStr "logo_url"]}
  = sqlForPartialUpdate [("numEmployees", VNum 10)]
      {["numEmployees" := VStr "num_employees"]}.
Proof.
  apply (unused_translations_ignored [("numEmployees", VNum 10)] {["numEmployees" := VStr "num_employees"; "logoUrl" := VStr "logo_url"]}
           {["numEmployees" := VStr "num_employees"]}).
  intros k Hk. apply list_elem_of_singleton in Hk as ->. vm_compute. reflexivity.
Defined.

(** X5. Nothing checks that the resolved columns are distinct: a field
    translated to [column] and a second field named [column], for which
    the table reads [undefined] (no entry of its own and no inherited
    property), compile to two assignments of that one column. *)
Theorem same_column_twice_not_detected
    (field column : string) (v v' : value) (jsToSql : gmap string value) :
  jsToSql !! field = Some (VStr column) ->
  get jsToSql column = VUndefined ->
  truthy (VStr column) = true ->
  sqlForPartialUpdate [(field, v); (column, v')] jsToSql
  = inr {| setCols :=
             String "034"%char
               (column +:+ String "034"%char
                  ("=$1, " +:+ String "034"%char (column +:+ String "034"%char "=$2")));
           values := [v; v'] |}.
Proof.
  intros Hfield Hcolumn Htruthy. unfold sqlForPartialUpdate, cols.
  cbn [keys fmap list_fmap fst length Nat.eqb imap Js.values snd Nat.add compose
       String.concat].
  assert (Hfirst : columnName jsToSql field = column)
    by (rewrite SqlFacts.columnName_cases, Hfield; cbn [toString]; by rewrite Htruthy).
  assert (Hsecond : columnName jsToSql column = column)
    by (unfold columnName; by rewrite Hcolumn).
  rewrite Hfirst, Hsecond, !SqlFacts.assignment_text.
  do 2 f_equal.
  change (pretty 1%nat) with "1". change (pretty 2%nat) with "2".
  by rewrite !app_cons_string, !append_assoc.
Qed.

Lemma same_column_twice_not_detected_witness :
  sqlForPartialUpdate [("numEmployees", VNum 1); ("num_employees", VNum 2)]
    {["numEmployees" := VStr "num_employees"; "logoUrl" := VStr "logo_url"]}
  = inr {| setCols :=
             String "034"%char
               ("num_employees" +:+ String "034"%char
                  ("=$1, " +:+ String "034"%char
                     ("num_employees" +:+ String "034"%char "=$2")));
           values := [VNum 1; VNum 2] |}.
Proof.
  apply (same_column_twice_not_detected "numEmployees" "num_employees"
           (VNum 1) (VNum 2)
           {["numEmployees" := VStr "num_employees"; "logoUrl" := VStr "logo_url"]});
    reflexivity.
Defined.

Lemma length_append (a b : string) :
  String.length (a +:+ b) = (String.length a + String.length b)%nat.
Proof.
  induction a as [|x a IH]; [reflexivity|].
  rewrite app_cons_string. simpl. by rewrite IH.
Qed.

(** X13. The translation table is read through the prototype chain: a field
    with no entry of its own whose name every object inherits (for one
    [toString], [constructor], [__proto__]) does not keep its name; the
    column printed is the string form of the inherited value. *)
Theorem inherited_property_used_as_column
    (dataToUpdate : object) (jsToSql : gmap string value)
    (i : nat) (k : string) (v inherited : value) :
  dataToUpdate !! i = Some (k, v) ->
  jsToSql !! k = None ->
  objectPrototype k = Some inherited ->
  columnName jsToSql k = toString inherited /\
  columnName jsToSql k <> k /\
  exists c texts,
    sqlForPartialUpdate dataToUpdate jsToSql = inr c /\
    setCols c = String.concat ", " texts /\
    texts !! i
    = Some (String "034"%char
              (toString inherited +:+ String "034"%char ("=$" +:+ pretty (i + 1)%nat))).
Proof.
  intros Hi Hown Hproto.
  assert (Hname : columnName jsToSql k = toString inherited)
    by (by rewrite SqlFacts.columnName_cases, Hown, Hproto).
  split; [exact Hname|]. split.
  - rewrite Hname. revert Hproto. unfold objectPrototype.
    destruct (String.eqb k "__proto__") eqn:E1.
    { apply String.eqb_eq in E1 as ->. by intros [= <-]. }
    destruct (String.eqb k "constructor") eqn:E2.
    { apply String.eqb_eq in E2 as ->. by intros [= <-]. }
    case_bool_decide; [|discriminate]. intros [= <-]. cbn [toString].
    intros Heq. apply (f_equal String.length) in Heq.
    rewrite !length_append in Heq. simpl in Heq. lia.
  - assert (Hne : dataToUpdate <> []) by (intros ->; discriminate Hi).
    eexists _, (cols (keys dataToUpdate) jsToSql).
    split; [by apply SqlFacts.sqlForPartialUpdate_nonempty|].
    split; [reflexivity|].
    rewrite Nat.add_1_r, (SqlFacts.cols_lookup dataToUpdate jsToSql i k v Hi).
    by rewrite Hname, SqlFacts.assignment_text.
Qed.

Lemma inherited_property_used_as_column_witness :
  columnName ∅ "toString" = toString (VObject "function toString() { [native code] }") /\
  columnName ∅ "toString" <> "toString" /\
  exists c texts,
    sqlForPartialUpdate [("toString", VStr "x")] ∅ = inr c /\
    setCols c = String.concat ", " texts /\
    texts !! 0%nat
    = Some (String "034"%char
              (toString (VObject "function toString() { [native code] }")
               +:+ String "034"%char ("=$" +:+ pretty (0 + 1)%nat))).
Proof.
  apply (inherited_property_used_as_column [("toString", VStr "x")] ∅ 0 "toString"
           (VStr "x") (VObject "function toString() { [native code] }"));
    reflexivity.
Defined.

End SqlMore.

(* ===================================================================== *)
(** * More on the handler of GET /companies *)
(* ===================================================================== *)

Module CompaniesRouteMore.
Import Js CompaniesRoute.

Lemma gt_irrefl (a : number) : gt a a = false.
Proof.
  destruct a as [|q| |]; try reflexivity. simpl.
  apply negb_false_iff, Qle_bool_iff, Qle_refl.
Qed.

Lemma toBound_Some (Number : string -> number) (raw : option string) (a : number) :
  toBound Number raw = Some a
  <-> exists s, raw = Some s /\ truthy (VStr s) = true /\ a = Number s.
Proof.
  unfold toBound. destruct raw as [s|].
  - destruct (truthy (VStr s)) eqn:Hs; split.
    + intros [= <-]. by exists s.
    + by intros [s' [[= <-] [_ ->]]].
    + discriminate.
    + intros [s' [[= <-] [Hs' _]]]. congruence.
  - split; [discriminate | by intros [s [? _]]].
Qed.

Lemma minAboveMax_true (Number : string -> number) (rawMin rawMax : option string) :
  minAboveMax (toBound Number rawMin) (toBound Number rawMax) = true
  <-> exists smin smax,
        rawMin = Some smin /\ rawMax = Some smax /\
        truthy (VStr smin) = true /\ truthy (VStr smax) = true /\
        gt (Number smin) (Number smax) = true.
Proof.
  unfold minAboveMax. split.
  - destruct (toBound Number rawMin) as [a|] eqn:Ha; [|discriminate].
    destruct (toBound Number rawMax) as [b|] eqn:Hb; [|discriminate].
    apply toBound_Some in Ha as [smin [-> [Tmin ->]]].
    apply toBound_Some in Hb as [smax [-> [Tmax ->]]].
    intros Hgt. by exists smin, smax.
  - intros [smin [smax [-> [-> [Tmin [Tmax Hgt]]]]]].
    unfold toBound. by rewrite Tmin, Tmax.
Qed.

Lemma getCompanies_accepts
    (Number : string -> number) (companies : Type)
    (findAll : option string -> option number -> option number -> result companies)
    (q : query) :
  minAboveMax (toBound Number (minEmployees q)) (toBound Number (maxEmployees q)) = false ->
  getCompanies Number companies findAll q
  = ([FindAllCall (name q) (toBound Number (minEmployees q))
        (toBound Number (maxEmployees q))],
     match findAll (name q) (toBound Number (minEmployees q))
             (toBound Number (maxEmployees q)) with
     | inr found => Json found
     | inl err => Next err
     end).
Proof.
  intros Hcmp. unfold getCompanies, tryBlock. rewrite Hcmp.
  cbn [bind ret awaitFindAll fst snd app].
  by destruct (findAll _ _ _).
Qed.

Lemma getCompanies_rejects
    (Number : string -> number) (companies : Type)
    (findAll : option string -> option number -> option number -> result companies)
    (q : query) :
  minAboveMax (toBound Number (minEmployees q)) (toBound Number (maxEmployees q)) = true ->
  getCompanies Number companies findAll q
  = ([], Next (BadRequestError "minEmployees must be less than maxEmployees")).
Proof. intros Hcmp. unfold getCompanies, tryBlock. by rewrite Hcmp. Qed.

(** X7. The check of the bounds is strict: a request whose minimum and
    maximum are the same string is not rejected, whatever [Number] makes
    of it; the finder is called with the two equal bounds. *)
Theorem equal_bounds_accepted
    (Number : string -> number) (companies : Type)
    (findAll : option string -> option number -> option number -> result companies)
    (q : query) (s : string) :
  minEmployees q = Some s ->
  maxEmployees q = Some s ->
  (getCompanies Number companies findAll q).1
  = [FindAllCall (name q) (toBound Number (Some s)) (toBound Number (Some s))].
Proof.
  intros Hmin Hmax. rewrite getCompanies_accepts; rewrite Hmin, Hmax; [reflexivity|].
  unfold toBound. destruct (truthy (VStr s)); [apply gt_irrefl | reflexivity].
Qed.

Lemma equal_bounds_accepted_witness :
  (getCompanies NumberOfDigits (list string) (fun _ _ _ => inr ["c1"])
     (Query None (Some "7") (Some "7"))).1
  = [FindAllCall None (toBound NumberOfDigits (Some "7")) (toBound NumberOfDigits (Some "7"))].
Proof.
  apply (equal_bounds_accepted NumberOfDigits (list string) (fun _ _ _ => inr ["c1"])
           (Query None (Some "7") (Some "7")) "7"); reflexivity.
Defined.

(** X8. A bound given as the empty string counts as no bound: it reaches
    the finder as [undefined], not as [Number("")], and a request with such
    a bound is never rejected by the check, whatever the other bound is. *)
Theorem empty_bound_is_no_bound
    (Number : string -> number) (companies : Type)
    (findAll : option string -> option number -> option number -> result companies)
    (q : query) :
  minEmployees q = Some "" \/ maxEmployees q = Some "" ->
  (getCompanies Number companies findAll q).1
  = [FindAllCall (name q) (toBound Number (minEmployees q))
       (toBound Number (maxEmployees q))] /\
  (minEmployees q = Some "" -> toBound Number (minEmployees q) = None) /\
  (maxEmployees q = Some "" -> toBound Number (maxEmployees q) = None).
Proof.
  intros Hempty. split; [|split; by intros ->].
  rewrite getCompanies_accepts; [reflexivity|].
  destruct Hempty as [-> | ->]; simpl; [reflexivity|].
  by destruct (toBound Number (minEmployees q)).
Qed.

Lemma empty_bound_is_no_bound_witness :
  (getCompanies NumberOfDigits (list string) (fun _ _ _ => inr ["c1"])
     (Query (Some "net") (Some "9") (Some ""))).1
  = [FindAllCall (Some "net") (toBound NumberOfDigits (Some "9"))
       (toBound NumberOfDigits (Some ""))] /\
  (Some "9" = Some "" -> toBound NumberOfDigits (Some "9") = None) /\
  (Some "" = Some "" -> toBound NumberOfDigits (Some "") = None).
Proof.
  apply (empty_bound_is_no_bound NumberOfDigits (list string) (fun _ _ _ => inr ["c1"])
           (Query (Some "net") (Some "9") (Some ""))).
  right. reflexivity.
Defined.

End CompaniesRouteMore.

(* ===================================================================== *)
(** * Properties of the other company routes *)
(* ===================================================================== *)

Module CompanyHandlersFacts.
Import Js CompanyHandlers.

Section Facts.

Variable jsonBody companyJson schemaJson locals E : Type.
Variable companyNewSchema companyUpdateSchema : schemaJson.
Variable validate : jsonBody -> schemaJson -> validatorResult.
Variable create : jsonBody -> E + companyJson.
Variable get : string -> E + companyJson.
Variable update : string -> jsonBody -> E + companyJson.
Variable remove : string -> E + unit.
Variable ensureAdmin : request jsonBody locals -> E + unit.

Local Abbreviation post := (postCompany companyNewSchema validate create ensureAdmin).
Local Abbreviation getOne := (@getCompany jsonBody companyJson locals E get).
Local Abbreviation patch := (patchCompany companyUpdateSchema validate update ensureAdmin).
Local Abbreviation del := (@deleteCompany jsonBody companyJson locals E remove ensureAdmin).

Lemma post_admitted (req : request jsonBody locals) (u : unit) :
  ensureAdmin req = inr u ->
  post req
  = if valid (validate (body req) companyNewSchema)
    then ([Create (body req)],
          match create (body req) with
          | inr company => Reply 201 (CompanyJson company)
          | inl err => Next (Raised err)
          end)
    else ([], Next (BadRequestStacks
                      (stack <$> errors (validate (body req) companyNewSchema)))).
Proof.
  intros Hadmin. unfold postCompany, behind, postHandler, requireValid. rewrite Hadmin.
  destruct (valid _); [|reflexivity]. cbn. by destruct (create (body req)).
Qed.

Lemma patch_admitted (req : request jsonBody locals) (u : unit) :
  ensureAdmin req = inr u ->
  patch req
  = if valid (validate (body req) companyUpdateSchema)
    then ([Update (handle req) (body req)],
          match update (handle req) (body req) with
          | inr company => Reply 200 (CompanyJson company)
          | inl err => Next (Raised err)
          end)
    else ([], Next (BadRequestStacks
                      (stack <$> errors (validate (body req) companyUpdateSchema)))).
Proof.
  intros Hadmin. unfold patchCompany, behind, patchHandler, requireValid. rewrite Hadmin.
  destruct (valid _); [|reflexivity]. cbn. by destruct (update _ _).
Qed.

Lemma del_admitted (req : request jsonBody locals) (u : unit) :
  ensureAdmin req = inr u ->
  del req
  = ([Remove (handle req)],
     match remove (handle req) with
     | inr _ => Reply 200 (DeletedJson (handle req))
     | inl err => Next (Raised err)
     end).
Proof.
  intros Hadmin. unfold deleteCompany, behind, deleteHandler. rewrite Hadmin.
  cbn. by destruct (remove _).
Qed.

Lemma getOne_runs (req : request jsonBody locals) :
  getOne req
  = ([Get (handle req)],
     match get (handle req) with
     | inr company => Reply 200 (CompanyJson company)
     | inl err => Next (Raised err)
     end).
Proof. unfold getCompany, getHandler. cbn. by destruct (get _). Qed.

(** Both directions of "the route replied exactly when ...", once the route
    has been computed. *)
Ltac reply_iff :=
  cbn [snd]; split;
  [ intros Hreply; try discriminate Hreply;
    injection Hreply as <- <-; eauto 10
  | intros Hex;
    repeat match goal with
           | H : exists _, _ |- _ => destruct H as [? H]
           | H : _ /\ _ |- _ => destruct H
           end;
    subst; congruence ].

Lemma refused (handler : request jsonBody locals
                         -> list (modelCall jsonBody) * reply companyJson E)
    (req : request jsonBody locals) (err : E) :
  ensureAdmin req = inl err ->
  behind ensureAdmin handler req = ([], Next (Raised err)).
Proof. intros H. unfold behind. by rewrite H. Qed.

(** X9. When [ensureAdmin] refuses a request with [err], the routes that
    create, patch and delete end with [next(err)] and call no model
    function; no validation result matters.  The route that reads one
    company is not behind the middleware and calls [Company.get] all the
    same. *)
Theorem refused_requests_reach_no_model
    (req : request jsonBody locals) (err : E) :
  ensureAdmin req = inl err ->
  post req = ([], Next (Raised err)) /\
  patch req = ([], Next (Raised err)) /\
  del req = ([], Next (Raised err)) /\
  (getOne req).1 = [Get (handle req)].
Proof.
  intros H. repeat split; try by apply refused.
  by rewrite getOne_runs.
Qed.

(** X10. Past the middleware, a body that the validator finds invalid stops
    the creating and the patching routes before the model: no call is
    made, and [next] receives a [BadRequestError] whose message lists the
    [stack] of each validation error, in the validator's order. *)
Theorem invalid_body_reaches_no_model (req : request jsonBody locals) (u : unit) :
  ensureAdmin req = inr u ->
  (valid (validate (body req) companyNewSchema) = false ->
   post req
   = ([], Next (BadRequestStacks
                  (stack <$> errors (validate (body req) companyNewSchema))))) /\
  (valid (validate (body req) companyUpdateSchema) = false ->
   patch req
   = ([], Next (BadRequestStacks
                  (stack <$> errors (validate (body req) companyUpdateSchema))))).
Proof.
  intros Hadmin. split; intros Hinvalid.
  - by rewrite (post_admitted req u Hadmin), Hinvalid.
  - by rewrite (patch_admitted req u Hadmin), Hinvalid.
Qed.

(** X11. A route answers with a status and a JSON body only after its one
    model call has resolved, the gates before it having let the request
    through: 201 with the created company, 200 with the company read or
    patched, 200 with [{ deleted: handle }] echoing the handle of the URL.
    Each route makes at most one model call, with the body and the handle
    as received. *)
Theorem replies_follow_the_model (req : request jsonBody locals) :
  (forall status json,
      (post req).2 = Reply status json
      <-> exists u company,
            ensureAdmin req = inr u /\
            valid (validate (body req) companyNewSchema) = true /\
            create (body req) = inr company /\
            status = 201%nat /\ json = CompanyJson company) /\
  (forall status json,
      (getOne req).2 = Reply status json
      <-> exists company,
            get (handle req) = inr company /\
            status = 200%nat /\ json = CompanyJson company) /\
  (forall status json,
      (patch req).2 = Reply status json
      <-> exists u company,
            ensureAdmin req = inr u /\
            valid (validate (body req) companyUpdateSchema) = true /\
            update (handle req) (body req) = inr company /\
            status = 200%nat /\ json = CompanyJson company) /\
  (forall status json,
      (del req).2 = Reply status json
      <-> exists u done,
            ensureAdmin req = inr u /\
            remove (handle req) = inr done /\
            status = 200%nat /\ json = DeletedJson (handle req)) /\
  ((post req).1 = [] \/ (post req).1 = [Create (body req)]) /\
  (getOne req).1 = [Get (handle req)] /\
  ((patch req).1 = [] \/ (patch req).1 = [Update (handle req) (body req)]) /\
  ((del req).1 = [] \/ (del req).1 = [Remove (handle req)]).
Proof.
  split; [|split; [|split; [|split; [|split; [|split; [|split]]]]]].
  - intros status json.
    destruct (ensureAdmin req) as [err|u] eqn:Hadmin.
    + unfold postCompany. rewrite (refused _ req err Hadmin). reply_iff.
    + rewrite (post_admitted req u Hadmin).
      destruct (valid _), (create _); reply_iff.
  - intros status json. rewrite getOne_runs.
    destruct (get _); reply_iff.
  - intros status json.
    destruct (ensureAdmin req) as [err|u] eqn:Hadmin.
    + unfold patchCompany. rewrite (refused _ req err Hadmin). reply_iff.
    + rewrite (patch_admitted req u Hadmin).
      destruct (valid _), (update _ _); reply_iff.
  - intros status json.
    destruct (ensureAdmin req) as [err|u] eqn:Hadmin.
    + unfold deleteCompany. rewrite (refused _ req err Hadmin). reply_iff.
    + rewrite (del_admitted req u Hadmin).
      destruct (remove _); reply_iff.
  - destruct (ensureAdmin req) as [err|u] eqn:Hadmin.
    + unfold postCompany. rewrite (refused _ req err Hadmin). by left.
    + rewrite (post_admitted req u Hadmin). destruct (valid _); [by right | by left].
  - by rewrite getOne_runs.
  - destruct (ensureAdmin req) as [err|u] eqn:Hadmin.
    + unfold patchCompany. rewrite (refused _ req err Hadmin). by left.
    + rewrite (patch_admitted req u Hadmin). destruct (valid _); [by right | by left].
  - destruct (ensureAdmin req) as [err|u] eqn:Hadmin.
    + unfold deleteCompany. rewrite (refused _ req err Hadmin). by left.
    + rewrite (del_admitted req u Hadmin). by right.
Qed.

(** X12. Past the gates, an error that the model call rejects with goes to
    [next] as it is, after that one call: the routes add nothing to it and
    send no reply. *)
Theorem model_errors_passed_on (req : request jsonBody locals) (u : unit) (err : E) :
  ensureAdmin req = inr u ->
  (valid (validate (body req) companyNewSchema) = true ->
   create (body req) = inl err ->
   post req = ([Create (body req)], Next (Raised err))) /\
  (get (handle req) = inl err ->
   getOne req = ([Get (handle req)], Next (Raised err))) /\
  (valid (validate (body req) companyUpdateSchema) = true ->
   update (handle req) (body req) = inl err ->
   patch req = ([Update (handle req) (body req)], Next (Raised err))) /\
  (remove (handle req) = inl err ->
   del req = ([Remove (handle req)], Next (Raised err))).
Proof.
  intros Hadmin. repeat split.
  - intros Hvalid Hcreate. by rewrite (post_admitted req u Hadmin), Hvalid, Hcreate.
  - intros Hget. by rewrite getOne_runs, Hget.
  - intros Hvalid Hupdate. by rewrite (patch_admitted req u Hadmin), Hvalid, Hupdate.
  - intros Hremove. by rewrite (del_admitted req u Hadmin), Hremove.
Qed.

End Facts.

Lemma refused_requests_reach_no_model_witness :
  @postCompany object object unit bool string tt
    (fun b _ => ValidatorResult true [])
    (fun b => inr b)
    (fun req => if resLocals req then inr tt else inl "Unauthorized")
    (Request [("handle", VStr "c9")] "c1" false)
  = ([], Next (Raised "Unauthorized")) /\
  @patchCompany object object unit bool string tt
    (fun b _ => ValidatorResult true [])
    (fun _ b => inr b)
    (fun req => if resLocals req then inr tt else inl "Unauthorized")
    (Request [("handle", VStr "c9")] "c1" false)
  = ([], Next (Raised "Unauthorized")) /\
  @deleteCompany object object bool string
    (fun _ => inr tt)
    (fun req => if resLocals req then inr tt else inl "Unauthorized")
    (Request [("handle", VStr "c9")] "c1" false)
  = ([], Next (Raised "Unauthorized")) /\
  (@getCompany object object bool string
     (fun _ => inr [("handle", VStr "c1")])
     (Request [("handle", VStr "c9")] "c1" false)).1
  = [Get "c1"].
Proof.
  apply (refused_requests_reach_no_model object object unit bool string tt tt
           (fun b _ => ValidatorResult true [])
           (fun b => inr b)
           (fun _ => inr [("handle", VStr "c1")])
           (fun _ b => inr b)
           (fun _ => inr tt)
           (fun req => if resLocals req then inr tt else inl "Unauthorized")
           (Request [("handle", VStr "c9")] "c1" false) "Unauthorized").
  reflexivity.
Defined.

Lemma invalid_body_reaches_no_model_witness :
  (valid (ValidatorResult false [ValidationError "instance requires property name"])
   = false ->
   @postCompany object object unit bool string tt
     (fun b _ => ValidatorResult false [ValidationError "instance requires property name"])
     (fun b => inr b)
     (fun req => if resLocals req then inr tt else inl "Unauthorized")
     (Request [] "c1" true)
   = ([], Next (BadRequestStacks
                  (stack <$> [ValidationError "instance requires property name"])))) /\
  (valid (ValidatorResult false [ValidationError "instance requires property name"])
   = false ->
   @patchCompany object object unit bool string tt
     (fun b _ => ValidatorResult false [ValidationError "instance requires property name"])
     (fun _ b => inr b)
     (fun req => if resLocals req then inr tt else inl "Unauthorized")
     (Request [] "c1" true)
   = ([], Next (BadRequestStacks
                  (stack <$> [ValidationError "instance requires property name"])))).
Proof.
  apply (invalid_body_reaches_no_model object object unit bool string tt tt
           (fun b _ => ValidatorResult false
                         [ValidationError "instance requires property name"])
           (fun b => inr b)
           (fun _ b => inr b)
           (fun req => if resLocals req then inr tt else inl "Unauthorized")
           (Request [] "c1" true) tt).
  reflexivity.
Defined.

Lemma model_errors_passed_on_witness :
  (valid (ValidatorResult true []) = true ->
   @inl string object "Duplicate company: c1" = inl "Duplicate company: c1" ->
   @postCompany object object unit bool string tt
     (fun b _ => ValidatorResult true [])
     (fun _ => inl "Duplicate company: c1")
     (fun req => if resLocals req then inr tt else inl "Unauthorized")
     (Request [("handle", VStr "c1")] "c1" true)
   = ([Create [("handle", VStr "c1")]], Next (Raised "Duplicate company: c1"))) /\
  (@inl string object "Duplicate company: c1" = inl "Duplicate company: c1" ->
   @getCompany object object bool string
     (fun _ => inl "Duplicate company: c1")
     (Request [("handle", VStr "c1")] "c1" true)
   = ([Get "c1"], Next (Raised "Duplicate company: c1"))) /\
  (valid (ValidatorResult true []) = true ->
   @inl string object "Duplicate company: c1" = inl "Duplicate company: c1" ->
   @patchCompany object object unit bool string tt
     (fun b _ => ValidatorResult true [])
     (fun _ _ => inl "Duplicate company: c1")
     (fun req => if resLocals req then inr tt else inl "Unauthorized")
     (Request [("handle", VStr "c1")] "c1" true)
   = ([Update "c1" [("handle", VStr "c1")]], Next (Raised "Duplicate company: c1"))) /\
  (@inl string unit "Duplicate company: c1" = inl "Duplicate company: c1" ->
   @deleteCompany object object bool string
     (fun _ => inl "Duplicate company: c1")
     (fun req => if resLocals req then inr tt else inl "Unauthorized")
     (Request [("handle", VStr "c1")] "c1" true)
   = ([Remove "c1"], Next (Raised "Duplicate company: c1"))).
Proof.
  apply (model_errors_passed_on object object unit bool string tt tt
           (fun b _ => ValidatorResult true [])
           (fun _ => inl "Duplicate company: c1")
           (fun _ => inl "Duplicate company: c1")
           (fun _ _ => inl "Duplicate company: c1")
           (fun _ => inl "Duplicate company: c1")
           (fun req => if resLocals req then inr tt else inl "Unauthorized")
           (Request [("handle", VStr "c1")] "c1" true) tt "Duplicate company: c1").
  reflexivity.
Defined.

End CompanyHandlersFacts.

(* ===================================================================== *)
(** * The handler of GET /companies on any parsed query *)
(* ===================================================================== *)

Module CompaniesRouteAnyFacts.
Import Js CompaniesRouteAny.

Section Facts.

Variable Number : queryValue -> CompaniesRoute.number.
Variable companies : Type.
Variable findAll :
  option queryValue -> option CompaniesRoute.number -> option CompaniesRoute.number
  -> result companies.



Lemma getCompanies_any_accepts (q : query) :
  CompaniesRoute.minAboveMax (toBound Number (minEmployees q))
    (toBound Number (maxEmployees q)) = false ->
  getCompanies Number companies findAll q
  = ([FindAllCall (name q) (toBound Number (minEmployees q))
        (toBound Number (maxEmployees q))],
     match findAll (name q) (toBound Number (minEmployees q))
             (toBound Number (maxEmployees q)) with
     | inr found => CompaniesRoute.Json found
     | inl err => CompaniesRoute.Next err
     end).
Proof.
  intros Hcmp. unfold getCompanies, tryBlock. rewrite Hcmp.
  cbn [andThen pure awaitFindAll fst snd app].
  by destruct (findAll _ _ _).
Qed.

Lemma getCompanies_any_rejects (q : query) :
  CompaniesRoute.minAboveMax (toBound Number (minEmployees q))
    (toBound Number (maxEmployees q)) = true ->
  getCompanies Number companies findAll q
  = ([], CompaniesRoute.Next
           (BadRequestError "minEmployees must be less than maxEmployees")).
Proof. intros Hcmp. unfold getCompanies, tryBlock. by rewrite Hcmp. Qed.

(** On a query of strings this is the handler of [CompaniesRoute]. *)
Lemma getCompanies_ofStrings (q : CompaniesRoute.query) :
  getCompanies Number companies findAll (ofStrings q)
  = (ofStringCall
       <$> (CompaniesRoute.getCompanies (fun s => Number (QString s)) companies
              (fun name => findAll (QString <$> name)) q).1,
     (CompaniesRoute.getCompanies (fun s => Number (QString s)) companies
        (fun name => findAll (QString <$> name)) q).2).
Proof.
  assert (Hbound : forall raw : option string,
             toBound Number (QString <$> raw)
             = CompaniesRoute.toBound (fun s => Number (QString s)) raw).
  { intros [s|]; [|reflexivity]. reflexivity. }
  destruct (CompaniesRoute.minAboveMax
              (CompaniesRoute.toBound (fun s => Number (QString s))
                 (CompaniesRoute.minEmployees q))
              (CompaniesRoute.toBound (fun s => Number (QString s))
                 (CompaniesRoute.maxEmployees q))) eqn:Hcmp.
  - rewrite (CompaniesRouteMore.getCompanies_rejects _ _ _ _ Hcmp).
    rewrite getCompanies_any_rejects; [reflexivity|].
    cbn [ofStrings minEmployees maxEmployees]. by rewrite !Hbound.
  - rewrite (CompaniesRouteMore.getCompanies_accepts _ _ _ _ Hcmp).
    rewrite getCompanies_any_accepts;
      cbn [ofStrings name minEmployees maxEmployees]; rewrite !Hbound;
      [reflexivity | exact Hcmp].
Qed.


End Facts.

(** A repeated parameter: one-element arrays with the minimum above the
    maximum are refused like the strings they hold, for a [Number] that
    reads such an array as its element. *)
Example arrays_refused :
  getCompanies
    (fun v => match v with
              | QString s | QArray [QString s] => CompaniesRoute.NumberOfDigits s
              | _ => CompaniesRoute.NaN
              end)
    (list string) (fun _ _ _ => inr ["c1"])
    (Query None (Some (QArray [QString "10"])) (Some (QArray [QString "5"])))
  = ([], CompaniesRoute.Next
           (BadRequestError "minEmployees must be less than maxEmployees")).
Proof. reflexivity. Qed.

End CompaniesRouteAnyFacts.
